(** * TradeAllocationSimulation: per-minute trade allocation

    A shallow embedding of [TradeAllocationSimulation.py] and the
    properties of its allocation engine.

    Modelling conventions.
    - A pandas timestamp is its number of nanoseconds since the epoch, a
      timedelta its number of nanoseconds; both are [Z].  Timestamps are
      taken as parsed (no NaT cell in the two time columns).
    - [QuantityMWh] is a signed volume, taken as an integer column: its
      values are [Z], and the column sum of [get_summary] wraps around at
      64 bits as the sum of an int64 column does.  A float column, whose sum
      rounds, is outside the model; the general theorems do not rely on the
      value of a sum.
    - A data frame is the list of its rows in index order; a row is a record
      with one field per column.  A derived column that is missing (or holds
      NaN) in a row is [None].
    - [self] is threaded explicitly: a method takes the object and returns
      the updated object together with its result. *)

From Stdlib Require Import ZArith List Bool String Lia Permutation Sorted.
Import ListNotations.
Local Open Scope string_scope.
Local Open Scope list_scope.
Local Open Scope Z_scope.

(** ** Data model *)

(** The three labels written by [_load_data]; they are also the keys of
    [trade_limits]. *)
Inductive category : Type := Hourly | HalfHourly | QuarterHourly.

Definition category_eqb (a b : category) : bool :=
  match a, b with
  | Hourly, Hourly | HalfHourly, HalfHourly | QuarterHourly, QuarterHourly => true
  | _, _ => false
  end.

(** A row of the dataset as [dataiku.Dataset(...).get_dataframe()] hands it
    over, with the two time columns already parsed. *)
Record dataset_row : Type := mk_dataset_row {
  ds_TransactionTime_parsed : Z;
  ds_ProductFromUTC : Z;
  ds_ProductTimeDiffMinutes : Z;
  ds_QuantityMWh : Z
}.

(** A row of [self.data], and equally a record of [to_dict('records')]. *)
Record trade : Type := mk_trade {
  TransactionTime_parsed : Z;
  ProductFromUTC : Z;
  ProductTimeDiffMinutes : Z;
  QuantityMWh : Z;
  ProductCategory : option category;
  Minute : option Z;
  Urgency : option Z
}.

Definition option_eqb {A : Type} (eqb : A -> A -> bool) (x y : option A) : bool :=
  match x, y with
  | Some a, Some b => eqb a b
  | None, None => true
  | _, _ => false
  end.

(** Equality of two records as Python's [dict.__eq__] decides it: same
    value under every key.  Two NaN labels count as equal here; line 85
    compares with allocated records only, whose label is never NaN, so the
    choice does not show in any result. *)
Definition trade_eqb (a b : trade) : bool :=
  (TransactionTime_parsed a =? TransactionTime_parsed b)
  && (ProductFromUTC a =? ProductFromUTC b)
  && (ProductTimeDiffMinutes a =? ProductTimeDiffMinutes b)
  && (QuantityMWh a =? QuantityMWh b)
  && option_eqb category_eqb (ProductCategory a) (ProductCategory b)
  && option_eqb Z.eqb (Minute a) (Minute b)
  && option_eqb Z.eqb (Urgency a) (Urgency b).

Definition set_Minute (m : Z) (r : trade) : trade :=
  mk_trade (TransactionTime_parsed r) (ProductFromUTC r) (ProductTimeDiffMinutes r)
           (QuantityMWh r) (ProductCategory r) (Some m) (Urgency r).

Definition set_Urgency (u : Z) (r : trade) : trade :=
  mk_trade (TransactionTime_parsed r) (ProductFromUTC r) (ProductTimeDiffMinutes r)
           (QuantityMWh r) (ProductCategory r) (Minute r) (Some u).

(** The object: the attributes assigned in [__init__]. [trade_limits] is a
    dict, iterated in insertion order, hence an association list. *)
Record TradeAllocationSimulation : Type := mk_sim {
  strategy : string;
  use_buffer : bool;
  buffer_threshold : Z;
  trade_limits : list (category * Z);
  max_messages_per_minute : Z;
  data : list trade
}.

Definition set_data (d : list trade) (self : TradeAllocationSimulation)
  : TradeAllocationSimulation :=
  mk_sim (strategy self) (use_buffer self) (buffer_threshold self)
         (trade_limits self) (max_messages_per_minute self) d.

(** ** [_load_data] and [__init__] *)

Definition minute_ns : Z := 60000000000.

(** [timedelta(minutes=m)] *)
Definition timedelta_minutes (m : Z) : Z := m * minute_ns.

(** [.map({15: 'QuarterHourly', 30: 'HalfHourly', 60: 'Hourly'})]: a value
    that is no key of the dict maps to NaN. *)
Definition category_of_minutes (d : Z) : option category :=
  if d =? 15 then Some QuarterHourly
  else if d =? 30 then Some HalfHourly
  else if d =? 60 then Some Hourly
  else None.

Definition _load_data (dataset : list dataset_row) : list trade :=
  map (fun d => mk_trade (ds_TransactionTime_parsed d) (ds_ProductFromUTC d)
                         (ds_ProductTimeDiffMinutes d) (ds_QuantityMWh d)
                         (category_of_minutes (ds_ProductTimeDiffMinutes d))
                         None None)
      dataset.

(** [dataset] stands for the frame found under [file_path]. *)
Definition __init__ (dataset : list dataset_row) (strategy : string)
    (use_buffer : bool) (buffer_threshold_minutes : Z) : TradeAllocationSimulation :=
  mk_sim strategy use_buffer (timedelta_minutes buffer_threshold_minutes)
         [(Hourly, 48); (HalfHourly, 96); (QuarterHourly, 192)]
         60
         (_load_data dataset).

(** ** Library functions used by [simulate_allocation] *)

(** [.dt.floor('T')] *)
Definition floor_T (t : Z) : Z := t - t mod minute_ns.

(** Sorted list of distinct keys, as [groupby] orders its groups. *)
Fixpoint insert_key (k : Z) (ks : list Z) : list Z :=
  match ks with
  | [] => [k]
  | k' :: ks' =>
      if k <? k' then k :: ks
      else if k =? k' then ks
      else k' :: insert_key k ks'
  end.

Definition unique_sorted (l : list Z) : list Z := fold_right insert_key [] l.

Definition Minute_keys (rows : list trade) : list Z :=
  flat_map (fun r => match Minute r with Some m => [m] | None => [] end) rows.

Definition Minute_is (k : Z) (r : trade) : bool := option_eqb Z.eqb (Minute r) (Some k).

(** [frame.groupby('Minute')], iterated: the groups in ascending key order,
    each with its rows in frame order; a row without key is in no group. *)
Definition groupby_Minute (rows : list trade) : list (Z * list trade) :=
  map (fun k => (k, filter (Minute_is k) rows)) (unique_sorted (Minute_keys rows)).

(** [sorted(l, key=key)]: ascending in [key], stable. *)
Section StableSort.
Context {A : Type} (key : A -> Z).

Fixpoint insert_sorted (x : A) (l : list A) : list A :=
  match l with
  | [] => [x]
  | y :: l' => if key x <=? key y then x :: l else y :: insert_sorted x l'
  end.

Definition sorted (l : list A) : list A := fold_right insert_sorted [] l.

(** The order [sorted] sorts by. *)
Definition key_le (a b : A) : Prop := key a <= key b.

End StableSort.

(** [l[:n]] for a Python int [n]: a negative bound counts from the end. *)
Definition slice_to {A : Type} (n : Z) (l : list A) : list A :=
  if n <? 0 then firstn (List.length l - Z.to_nat (- n))%nat l else firstn (Z.to_nat n) l.

(** [l[n:]] for [n = len(...)], which is never negative. *)
Definition slice_from {A : Type} (n : nat) (l : list A) : list A := skipn n l.

(** [trade['ProductCategory'] == product_type] *)
Definition has_category {A : Type} (cat : A -> option category)
    (product_type : category) (x : A) : bool :=
  option_eqb category_eqb (cat x) (Some product_type).

(** [trade in allocated] *)
Definition trade_in (t : trade) (l : list trade) : bool := existsb (trade_eqb t) l.

(** ** [simulate_allocation] *)

(** The variables live across the loop over [self.trade_limits.items()]. *)
Record flush_state : Type := mk_flush {
  buffer : list trade;
  message_count : Z;
  allocated_trades : list trade;
  unallocated_trades : list trade
}.

(** One iteration of the loop over [self.trade_limits.items()]
    (lines 72 to 85). *)
Definition flush_step (self : TradeAllocationSimulation) (st : flush_state)
    (item : category * Z) : flush_state :=
  let '(product_type, limit) := item in
  let product_group := filter (has_category ProductCategory product_type) (buffer st) in
  let remaining_limit := Z.max 0 (max_messages_per_minute self - message_count st) in
  let allocated := slice_to (Z.min limit remaining_limit) product_group in
  let unallocated := slice_from (List.length allocated) product_group in
  mk_flush (filter (fun trade => negb (trade_in trade allocated)) (buffer st))
           (message_count st + Z.of_nat (List.length allocated))
           (allocated_trades st ++ allocated)
           (unallocated_trades st ++ unallocated).

(** [(group['ProductFromUTC'] - group['TransactionTime_parsed']).abs()] *)
Definition urgency_of (r : trade) : Z := Z.abs (ProductFromUTC r - TransactionTime_parsed r).

(** [group['Urgency'] <= self.buffer_threshold], row by row. *)
Definition Urgency_le (threshold : Z) (r : trade) : bool :=
  match Urgency r with
  | Some u => u <=? threshold
  | None => false
  end.

(** Lines 60 to 64: the records that enter the buffer. *)
Definition initial_buffer (self : TradeAllocationSimulation) (group : list trade)
  : list trade :=
  if use_buffer self then
    let group' := map (fun r => set_Urgency (urgency_of r) r) group in
    filter (Urgency_le (buffer_threshold self)) group'
  else group.

(** Lines 67 and 68. *)
Definition apply_strategy (self : TradeAllocationSimulation) (buffer : list trade)
  : list trade :=
  if String.eqb (strategy self) "MaxMW"
  then sorted (fun x => - QuantityMWh x) buffer
  else buffer.

(** The bucket's working set: the buffer when the flush loop starts. *)
Definition working_set (self : TradeAllocationSimulation) (group : list trade)
  : list trade :=
  apply_strategy self (initial_buffer self group).

(** The body of [for _, group in grouped], acting on the two result lists. *)
Definition process_group (self : TradeAllocationSimulation)
    (acc : list trade * list trade) (group : list trade) : list trade * list trade :=
  let st := fold_left (flush_step self) (trade_limits self)
                      (mk_flush (working_set self group) 0 (fst acc) (snd acc)) in
  (allocated_trades st, unallocated_trades st).

(** What one bucket contributes to the two result lists. *)
Definition bucket_outputs (self : TradeAllocationSimulation) (group : list trade)
  : list trade * list trade :=
  process_group self ([], []) group.

(** [self.data['Minute'] = self.data['TransactionTime_parsed'].dt.floor('T')] *)
Definition assign_Minute (self : TradeAllocationSimulation) : TradeAllocationSimulation :=
  set_data (map (fun r => set_Minute (floor_T (TransactionTime_parsed r)) r) (data self)) self.

(** The buckets the loop runs over. *)
Definition grouped (self : TradeAllocationSimulation) : list (Z * list trade) :=
  groupby_Minute (data (assign_Minute self)).

(** [simulate_allocation] up to its [return]: the object as the method leaves
    it, and the final values of the locals [allocated_trades] and
    [unallocated_trades]. *)
Definition simulate_allocation_locals (self : TradeAllocationSimulation)
  : TradeAllocationSimulation * (list trade * list trade) :=
  let self' := assign_Minute self in
  (self', fold_left (fun acc g => process_group self' acc (snd g))
                    (groupby_Minute (data self')) ([], [])).

(** A frame built by [pd.DataFrame(records)]: its columns are the keys of
    the records, so a frame built from no record has no column. *)
Record DataFrame : Type := mk_frame {
  columns : list string;
  records : list trade
}.

Definition keys (r : trade) : list string :=
  ["TransactionTime_parsed"; "ProductFromUTC"; "ProductTimeDiffMinutes";
   "QuantityMWh"; "ProductCategory"]
  ++ (match Minute r with Some _ => ["Minute"] | None => [] end)
  ++ (match Urgency r with Some _ => ["Urgency"] | None => [] end).

Definition pd_DataFrame (l : list trade) : DataFrame :=
  mk_frame (match l with [] => [] | r :: _ => keys r end) l.

(** The method: [return pd.DataFrame(unallocated_trades)]. *)
Definition simulate_allocation (self : TradeAllocationSimulation)
  : TradeAllocationSimulation * DataFrame :=
  let '(self', (_, unallocated_trades)) := simulate_allocation_locals self in
  (self', pd_DataFrame unallocated_trades).

(** ** [get_summary] *)

Inductive exn : Type := KeyError (key : string).

(** [df.groupby('ProductCategory')]: raises on a frame without that column;
    otherwise the groups in ascending label order, rows with NaN dropped. *)
Definition groupby_ProductCategory (df : DataFrame) : exn + list (category * list trade) :=
  if existsb (String.eqb "ProductCategory") (columns df) then
    inr (flat_map (fun c =>
                     match filter (has_category ProductCategory c) (records df) with
                     | [] => []
                     | g => [(c, g)]
                     end)
                  [HalfHourly; Hourly; QuarterHourly])
  else inl (KeyError "ProductCategory").

(** The value of a 64-bit signed integer after wrap-around. *)
Definition wrap_int64 (x : Z) : Z := (x + 2 ^ 63) mod 2 ^ 64 - 2 ^ 63.

(** [...['QuantityMWh'].sum()] on an int64 column: the sum wraps around at
    64 bits. *)
Definition sum_QuantityMWh (l : list trade) : Z :=
  wrap_int64 (fold_left (fun s r => s + QuantityMWh r) l 0).

(** The summary frame as a mapping: label to (unallocated MWh, unallocated
    trades). *)
Definition get_summary (self : TradeAllocationSimulation)
  : TradeAllocationSimulation * (exn + list (category * (Z * Z))) :=
  let '(self', unallocated_df) := simulate_allocation self in
  match groupby_ProductCategory unallocated_df with
  | inl e => (self', inl e)
  | inr groups =>
      (self', inr (map (fun cg => (fst cg, (sum_QuantityMWh (snd cg),
                                            Z.of_nat (List.length (snd cg)))))
                       groups))
  end.

(** ** The allocation without the buffer update

    [allocate_by] is the flush loop with line 85 left out: every category
    is cut out of the same working set.  It is stated over any element type
    so that it can also be run on positions. *)
Section AllocateBy.

Context {A : Type} (cat : A -> option category) (cap : Z).

Fixpoint allocate_by (limits : list (category * Z)) (count : Z) (ws : list A)
  : list A * list A :=
  match limits with
  | [] => ([], [])
  | (c, limit) :: rest =>
      let g := filter (has_category cat c) ws in
      let a := slice_to (Z.min limit (Z.max 0 (cap - count))) g in
      let r := allocate_by rest (count + Z.of_nat (List.length a)) ws in
      (a ++ fst r, slice_from (List.length a) g ++ snd r)
  end.

(** The label of [x] is a key of [limits]. *)
Definition in_limits (limits : list (category * Z)) (x : A) : bool :=
  existsb (fun item => has_category cat (fst item) x) limits.

End AllocateBy.

(** The items of [trade_limits] the loop visits before it reaches [c]. *)
Fixpoint items_before (c : category) (limits : list (category * Z))
  : list (category * Z) :=
  match limits with
  | [] => []
  | item :: rest =>
      if category_eqb (fst item) c then [] else item :: items_before c rest
  end.

(** The state in which the flush loop of a bucket reaches category [c]. *)
Definition state_before (self : TradeAllocationSimulation) (group : list trade)
    (c : category) : flush_state :=
  fold_left (flush_step self) (items_before c (trade_limits self))
            (mk_flush (working_set self group) 0 [] []).

(** [remaining_limit] as line 73 computes it when [c] is processed. *)
Definition remaining_limit_at (self : TradeAllocationSimulation) (group : list trade)
    (c : category) : Z :=
  Z.max 0 (max_messages_per_minute self - message_count (state_before self group c)).

(** [self.trade_limits[c]] *)
Definition limit_of (self : TradeAllocationSimulation) (c : category) : Z :=
  match find (fun item => category_eqb (fst item) c) (trade_limits self) with
  | Some item => snd item
  | None => 0
  end.

(** Number of records of category [c] in a list. *)
Definition count_category (c : category) (l : list trade) : Z :=
  Z.of_nat (List.length (filter (has_category ProductCategory c) l)).

(** ** Notions used in the statements *)

Definition keys_distinct (self : TradeAllocationSimulation) : Prop :=
  NoDup (map fst (trade_limits self)).

(** [product_group] of line 72, cut out of the working set. *)
Definition product_group (c : category) (ws : list trade) : list trade :=
  filter (has_category ProductCategory c) ws.

(** The numbers of records the three iterations allocate. *)
Definition taken_Hourly (ws : list trade) : nat :=
  List.length (firstn 48 (product_group Hourly ws)).

Definition taken_HalfHourly (ws : list trade) : nat :=
  List.length (firstn (Z.to_nat (Z.min 96 (60 - Z.of_nat (taken_Hourly ws))))
                      (product_group HalfHourly ws)).

Definition taken_QuarterHourly (ws : list trade) : nat :=
  List.length
    (firstn (Z.to_nat (Z.min 192 (60 - Z.of_nat (taken_Hourly ws)
                                     - Z.of_nat (taken_HalfHourly ws))))
            (product_group QuarterHourly ws)).

Definition taken (c : category) (ws : list trade) : nat :=
  match c with
  | Hourly => taken_Hourly ws
  | HalfHourly => taken_HalfHourly ws
  | QuarterHourly => taken_QuarterHourly ws
  end.

(** The records of a bucket, each with its position in the bucket. *)
Definition positioned (group : list trade) : list (nat * trade) :=
  combine (seq 0 (List.length group)) group.

(** The dataset columns of a record. *)
Definition dataset_columns (x : trade) : dataset_row :=
  mk_dataset_row (TransactionTime_parsed x) (ProductFromUTC x)
                 (ProductTimeDiffMinutes x) (QuantityMWh x).

Definition descending_volume (x y : trade) : Prop := QuantityMWh x >= QuantityMWh y.

(** One bucket: 58 HalfHourly trades of volume 100, then three QuarterHourly
    trades of volumes 5, 50 and 20. *)
Definition volumes_dataset : list dataset_row :=
  repeat (mk_dataset_row 0 0 30 100) 58
  ++ [mk_dataset_row 1 0 15 5; mk_dataset_row 2 0 15 50; mk_dataset_row 3 0 15 20].

Definition volumes_group : list trade :=
  data (assign_Minute (__init__ volumes_dataset "MaxMW" false 60)).

(** 50 Hourly trades, then 50 QuarterHourly trades, all of one minute. *)
Definition priority_dataset : list dataset_row :=
  repeat (mk_dataset_row 0 0 60 1) 50 ++ repeat (mk_dataset_row 0 0 15 1) 50.

Definition priority_group : list trade :=
  data (assign_Minute (__init__ priority_dataset "FirstArrive" false 60)).

(** One Hourly trade: it is allocated, and nothing is left unallocated. *)
Definition one_trade_dataset : list dataset_row := [mk_dataset_row 0 0 60 1].

(** Two rows that agree on every column but [Urgency]. *)
Definition same_except_Urgency (r r' : trade) : Prop :=
  dataset_columns r' = dataset_columns r
  /\ ProductCategory r' = ProductCategory r
  /\ Minute r' = Minute r.

(** Two rows that agree on every column but [Minute], which the second row
    has as the first row's submission time floored to the minute. *)
Definition Minute_attached (r r' : trade) : Prop :=
  dataset_columns r' = dataset_columns r
  /\ ProductCategory r' = ProductCategory r
  /\ Urgency r' = Urgency r
  /\ Minute r' = Some (floor_T (TransactionTime_parsed r)).

(** One trade of each category, all of one minute. *)
Definition mixed_dataset : list dataset_row :=
  [mk_dataset_row 0 0 60 5; mk_dataset_row 1 0 15 7; mk_dataset_row 2 0 30 1].

Definition mixed_group : list trade :=
  data (assign_Minute (__init__ mixed_dataset "MaxMW" false 60)).

(** Two trades of one minute, delivery 61 and 60 minutes after submission. *)
Definition urgency_dataset : list dataset_row :=
  [mk_dataset_row 0 (61 * minute_ns) 60 5; mk_dataset_row 1 (60 * minute_ns + 1) 60 7].

Definition urgency_group : list trade :=
  data (assign_Minute (__init__ urgency_dataset "FirstArrive" true 60)).

Definition late_trade : trade :=
  mk_trade 0 (61 * minute_ns) 60 5 (Some Hourly) (Some 0) None.

Definition due_trade : trade :=
  mk_trade 1 (60 * minute_ns + 1) 60 7 (Some Hourly) (Some 0) None.

(** A trade with an interval length of 45 minutes next to an Hourly one. *)
Definition odd_dataset : list dataset_row :=
  [mk_dataset_row 0 0 45 5; mk_dataset_row 1 0 60 7].

(** The row has a key for [groupby('Minute')]. *)
Definition has_Minute (r : trade) : bool :=
  match Minute r with Some _ => true | None => false end.

(** The row of the summary for category [c], if there is one. *)
Definition summary_entry (c : category) (u : list trade) : list (category * (Z * Z)) :=
  match product_group c u with
  | [] => []
  | g => [(c, (sum_QuantityMWh g, Z.of_nat (List.length g)))]
  end.

(** The trade counts of a summary, added up. *)
Definition total_trades (m : list (category * (Z * Z))) : Z :=
  fold_right (fun e s => snd (snd e) + s) 0 m.

(** The record has one of the three labels. *)
Definition has_label (r : trade) : bool :=
  match ProductCategory r with Some _ => true | None => false end.

(** ** Basic facts *)

Lemma category_eqb_eq (a b : category) : category_eqb a b = true <-> a = b.
Proof. destruct a, b; simpl; split; intro H; try reflexivity; discriminate. Qed.

Lemma has_category_true {A : Type} (cat : A -> option category) c x :
  has_category cat c x = true <-> cat x = Some c.
Proof.
  unfold has_category. destruct (cat x) as [c'|]; simpl.
  - rewrite category_eqb_eq. split; congruence.
  - split; discriminate.
Qed.

Lemma option_eqb_Z_eq (x y : option Z) : option_eqb Z.eqb x y = true <-> x = y.
Proof.
  destruct x, y; simpl; try rewrite Z.eqb_eq; split; try congruence; discriminate.
Qed.

Lemma trade_eqb_eq (a b : trade) : trade_eqb a b = true <-> a = b.
Proof.
  unfold trade_eqb. rewrite !andb_true_iff, !Z.eqb_eq, !option_eqb_Z_eq.
  split.
  - intros [[[[[[H1 H2] H3] H4] H5] H6] H7].
    destruct a, b; simpl in *. subst.
    assert (ProductCategory0 = ProductCategory1) as ->.
    { destruct ProductCategory0, ProductCategory1; simpl in H5;
        try discriminate; try reflexivity.
      apply category_eqb_eq in H5. congruence. }
    reflexivity.
  - intros ->. repeat split.
    destruct (ProductCategory b); simpl; [apply category_eqb_eq|]; reflexivity.
Qed.

Lemma trade_in_true (t : trade) (l : list trade) : trade_in t l = true <-> In t l.
Proof.
  unfold trade_in. rewrite existsb_exists. split.
  - intros [x [Hx He]]. apply trade_eqb_eq in He. now subst.
  - intros H. exists t. split; [assumption | now apply trade_eqb_eq].
Qed.

Lemma filter_all {A : Type} (p : A -> bool) (l : list A) :
  Forall (fun x => p x = true) l -> filter p l = l.
Proof.
  induction 1 as [|x l Hx _ IH]; simpl; [reflexivity|]. now rewrite Hx, IH.
Qed.

Lemma filter_none {A : Type} (p : A -> bool) (l : list A) :
  Forall (fun x => p x = false) l -> filter p l = [].
Proof.
  induction 1 as [|x l Hx _ IH]; simpl; [reflexivity|]. now rewrite Hx.
Qed.

Lemma Forall_filter {A : Type} (p : A -> bool) (l : list A) :
  Forall (fun x => p x = true) (filter p l).
Proof. apply Forall_forall. intros x Hx. now apply filter_In in Hx. Qed.

(** A slice [l[:n]] is a prefix of [l], whatever the sign of [n]. *)
Lemma slice_to_firstn {A : Type} (n : Z) (l : list A) :
  exists k, slice_to n l = firstn k l.
Proof. unfold slice_to. destruct (n <? 0); eauto. Qed.

Lemma slice_to_nonneg {A : Type} (n : Z) (l : list A) :
  0 <= n -> slice_to n l = firstn (Z.to_nat n) l.
Proof. intros H. unfold slice_to. destruct (Z.ltb_spec n 0); [lia | reflexivity]. Qed.

Lemma slice_to_length_le {A : Type} (n : Z) (l : list A) :
  0 <= n -> Z.of_nat (List.length (slice_to n l)) <= n.
Proof.
  intros H. rewrite slice_to_nonneg by assumption.
  pose proof (firstn_le_length (Z.to_nat n) l) as Hl.
  rewrite length_firstn. lia.
Qed.

Lemma firstn_skipn_length {A : Type} (k : nat) (l : list A) :
  firstn k l ++ skipn (List.length (firstn k l)) l = l.
Proof.
  rewrite length_firstn.
  destruct (Nat.le_ge_cases k (List.length l)) as [Hk|Hk].
  - rewrite Nat.min_l by assumption. apply firstn_skipn.
  - rewrite Nat.min_r by assumption.
    rewrite firstn_all2 by assumption. rewrite skipn_all. apply app_nil_r.
Qed.

(** The two slices of lines 76 and 77 split the category's subsequence. *)
Lemma slice_split {A : Type} (n : Z) (l : list A) :
  slice_to n l ++ slice_from (List.length (slice_to n l)) l = l.
Proof.
  destruct (slice_to_firstn n l) as [k ->]. apply firstn_skipn_length.
Qed.

Lemma slice_to_incl {A : Type} (n : Z) (l : list A) x :
  In x (slice_to n l) -> In x l.
Proof.
  destruct (slice_to_firstn n l) as [k ->]. intros H.
  rewrite <- (firstn_skipn k l). apply in_or_app. now left.
Qed.

Lemma slice_from_incl {A : Type} (n : nat) (l : list A) x :
  In x (slice_from n l) -> In x l.
Proof.
  unfold slice_from. intros H.
  rewrite <- (firstn_skipn n l). apply in_or_app. now right.
Qed.

(** ** The flush loop and [allocate_by] *)

Lemma filter_filter_absorb {A : Type} (p q : A -> bool) (l : list A) :
  (forall x, In x l -> p x = true -> q x = true) ->
  filter p (filter q l) = filter p l.
Proof.
  induction l as [|x l IH]; intros H; simpl; [reflexivity|].
  destruct (p x) eqn:Hp.
  - rewrite (H x (or_introl eq_refl) Hp). simpl. rewrite Hp.
    f_equal. apply IH. intros y Hy. apply H. now right.
  - destruct (q x); simpl; rewrite ?Hp; apply IH; intros y Hy; apply H; now right.
Qed.

(** Line 85 removes records of the category just processed only, so the
    subsequence of any other category is the same before and after. *)
Lemma flush_step_other_category self st c limit c' :
  c' <> c ->
  filter (has_category ProductCategory c') (buffer (flush_step self st (c, limit)))
  = filter (has_category ProductCategory c') (buffer st).
Proof.
  intros Hc. simpl. apply filter_filter_absorb.
  intros x _ Hx. apply negb_true_iff.
  destruct (trade_in x _) eqn:Hin; [|reflexivity].
  apply trade_in_true, slice_to_incl, filter_In in Hin.
  destruct Hin as [_ Hin].
  apply has_category_true in Hx. apply has_category_true in Hin. congruence.
Qed.

Lemma allocate_by_ext {A : Type} (cat : A -> option category) cap limits :
  forall count ws ws',
    (forall item, In item limits ->
       filter (has_category cat (fst item)) ws = filter (has_category cat (fst item)) ws') ->
    allocate_by cat cap limits count ws = allocate_by cat cap limits count ws'.
Proof.
  induction limits as [|[c limit] rest IH]; intros count ws ws' H; simpl; [reflexivity|].
  pose proof (H (c, limit) (or_introl eq_refl)) as Hc. simpl in Hc. rewrite Hc.
  rewrite (IH _ ws ws'); [reflexivity|].
  intros item Hitem. apply H. now right.
Qed.

(** With pairwise distinct keys, which a dict has, the flush loop computes
    [allocate_by] on the buffer it starts from. *)
Lemma fold_flush_step self limits :
  NoDup (map fst limits) ->
  forall st,
    let r := allocate_by ProductCategory (max_messages_per_minute self) limits
                         (message_count st) (buffer st) in
    let st' := fold_left (flush_step self) limits st in
    allocated_trades st' = allocated_trades st ++ fst r
    /\ unallocated_trades st' = unallocated_trades st ++ snd r
    /\ message_count st' = message_count st + Z.of_nat (List.length (fst r)).
Proof.
  induction limits as [|[c limit] rest IH]; intros Hnd st.
  - simpl. rewrite !app_nil_r. repeat split. lia.
  - inversion Hnd as [|? ? Hnotin Hnd']; subst.
    specialize (IH Hnd' (flush_step self st (c, limit))).
    cbv zeta in IH |- *.
    change (fold_left (flush_step self) ((c, limit) :: rest) st)
      with (fold_left (flush_step self) rest (flush_step self st (c, limit))).
    destruct IH as (Ha & Hu & Hm).
    rewrite (allocate_by_ext ProductCategory _ rest _ _ (buffer st)) in Ha, Hu, Hm.
    2,3,4: (intros item Hitem; apply flush_step_other_category;
            intros Heq; apply Hnotin; rewrite <- Heq; now apply in_map).
    rewrite Ha, Hu, Hm. simpl.
    rewrite !app_assoc, length_app. repeat split. lia.
Qed.

Lemma init_keys_distinct dataset strat ub thr :
  keys_distinct (__init__ dataset strat ub thr).
Proof.
  unfold keys_distinct. simpl.
  repeat constructor; simpl; intuition discriminate.
Qed.

Lemma process_group_spec self acc group :
  keys_distinct self ->
  let r := allocate_by ProductCategory (max_messages_per_minute self)
                       (trade_limits self) 0 (working_set self group) in
  process_group self acc group = (fst acc ++ fst r, snd acc ++ snd r).
Proof.
  intros Hnd. unfold process_group.
  destruct (fold_flush_step self (trade_limits self) Hnd
              (mk_flush (working_set self group) 0 (fst acc) (snd acc))) as (Ha & Hu & _).
  simpl in Ha, Hu. cbv zeta. now rewrite Ha, Hu.
Qed.

Lemma bucket_outputs_spec self group :
  keys_distinct self ->
  bucket_outputs self group
  = allocate_by ProductCategory (max_messages_per_minute self)
                (trade_limits self) 0 (working_set self group).
Proof.
  intros Hnd. unfold bucket_outputs. rewrite process_group_spec by assumption.
  simpl. now destruct (allocate_by _ _ _ _ _).
Qed.

Lemma process_group_bucket self acc group :
  keys_distinct self ->
  process_group self acc group
  = (fst acc ++ fst (bucket_outputs self group),
     snd acc ++ snd (bucket_outputs self group)).
Proof.
  intros Hnd. rewrite bucket_outputs_spec by assumption.
  now apply process_group_spec.
Qed.

(** The two result lists are the buckets' contributions, in bucket order. *)
Lemma fold_process_group self (groups : list (Z * list trade)) :
  keys_distinct self ->
  forall acc,
    fold_left (fun acc g => process_group self acc (snd g)) groups acc
    = (fst acc ++ List.concat (map (fun g => fst (bucket_outputs self (snd g))) groups),
       snd acc ++ List.concat (map (fun g => snd (bucket_outputs self (snd g))) groups)).
Proof.
  intros Hnd. induction groups as [|g groups IH]; intros acc; simpl.
  - rewrite !app_nil_r. now destruct acc.
  - rewrite IH, process_group_bucket by assumption. simpl.
    now rewrite !app_assoc.
Qed.

(** [self.data['Minute'] = ...] changes no attribute the loop body reads. *)
Lemma bucket_outputs_assign_Minute self group :
  bucket_outputs (assign_Minute self) group = bucket_outputs self group.
Proof. reflexivity. Qed.

Lemma simulate_allocation_locals_spec self :
  keys_distinct self ->
  simulate_allocation_locals self
  = (assign_Minute self,
     (List.concat (map (fun g => fst (bucket_outputs self (snd g))) (grouped self)),
      List.concat (map (fun g => snd (bucket_outputs self (snd g))) (grouped self)))).
Proof.
  intros Hnd. unfold simulate_allocation_locals, grouped.
  rewrite fold_process_group; [reflexivity|exact Hnd].
Qed.

(** ** A bucket under the limits of [__init__] *)

Lemma taken_Hourly_le ws : (taken_Hourly ws <= 48)%nat.
Proof. unfold taken_Hourly. rewrite length_firstn. lia. Qed.

Lemma taken_HalfHourly_le ws :
  Z.of_nat (taken_HalfHourly ws) <= Z.min 96 (60 - Z.of_nat (taken_Hourly ws)).
Proof.
  pose proof (taken_Hourly_le ws). unfold taken_HalfHourly.
  rewrite length_firstn. lia.
Qed.

Lemma taken_QuarterHourly_le ws :
  Z.of_nat (taken_QuarterHourly ws)
  <= Z.min 192 (60 - Z.of_nat (taken_Hourly ws) - Z.of_nat (taken_HalfHourly ws)).
Proof.
  pose proof (taken_Hourly_le ws). pose proof (taken_HalfHourly_le ws).
  unfold taken_QuarterHourly. rewrite length_firstn. lia.
Qed.

Lemma firstn_length_idem {A : Type} (k : nat) (l : list A) :
  firstn (List.length (firstn k l)) l = firstn k l.
Proof.
  rewrite length_firstn.
  destruct (Nat.le_ge_cases k (List.length l)) as [Hk|Hk].
  - now rewrite Nat.min_l.
  - rewrite Nat.min_r by assumption. now rewrite !firstn_all2 by lia.
Qed.

(** The outputs of a bucket in closed form. *)
Lemma bucket_outputs_init dataset strat ub thr group :
  let self := __init__ dataset strat ub thr in
  let ws := working_set self group in
  bucket_outputs self group
  = (firstn (taken_Hourly ws) (product_group Hourly ws)
     ++ firstn (taken_HalfHourly ws) (product_group HalfHourly ws)
     ++ firstn (taken_QuarterHourly ws) (product_group QuarterHourly ws),
     skipn (taken_Hourly ws) (product_group Hourly ws)
     ++ skipn (taken_HalfHourly ws) (product_group HalfHourly ws)
     ++ skipn (taken_QuarterHourly ws) (product_group QuarterHourly ws)).
Proof.
  intros self ws.
  rewrite bucket_outputs_spec by apply init_keys_distinct.
  fold ws. generalize ws. clear. intros ws.
  pose proof (taken_Hourly_le ws) as HH.
  pose proof (taken_HalfHourly_le ws) as HHH.
  pose proof (taken_QuarterHourly_le ws) as HQ.
  cbn [allocate_by __init__ self max_messages_per_minute trade_limits fst snd].
  fold (product_group Hourly ws) (product_group HalfHourly ws)
       (product_group QuarterHourly ws).
  unfold slice_from.
  replace (slice_to (Z.min 48 (Z.max 0 (60 - 0))) (product_group Hourly ws))
    with (firstn 48 (product_group Hourly ws))
    by (rewrite slice_to_nonneg by lia; reflexivity).
  fold (taken_Hourly ws).
  replace (slice_to (Z.min 96 (Z.max 0 (60 - (0 + Z.of_nat (taken_Hourly ws)))))
                    (product_group HalfHourly ws))
    with (firstn (Z.to_nat (Z.min 96 (60 - Z.of_nat (taken_Hourly ws))))
                 (product_group HalfHourly ws))
    by (rewrite slice_to_nonneg by lia; f_equal; lia).
  fold (taken_HalfHourly ws).
  replace (slice_to
             (Z.min 192
                (Z.max 0 (60 - (0 + Z.of_nat (taken_Hourly ws)
                                + Z.of_nat (taken_HalfHourly ws)))))
             (product_group QuarterHourly ws))
    with (firstn (Z.to_nat (Z.min 192 (60 - Z.of_nat (taken_Hourly ws)
                                          - Z.of_nat (taken_HalfHourly ws))))
                 (product_group QuarterHourly ws))
    by (rewrite slice_to_nonneg by lia; f_equal; lia).
  fold (taken_QuarterHourly ws).
  rewrite !app_nil_r.
  f_equal. f_equal; [|f_equal]; symmetry; apply firstn_length_idem.
Qed.

Lemma firstn_In_incl {A : Type} (k : nat) (l : list A) x : In x (firstn k l) -> In x l.
Proof. intros H. rewrite <- (firstn_skipn k l). apply in_or_app. now left. Qed.

Lemma skipn_In_incl {A : Type} (k : nat) (l : list A) x : In x (skipn k l) -> In x l.
Proof. intros H. rewrite <- (firstn_skipn k l). apply in_or_app. now right. Qed.

Lemma product_group_In c ws x :
  In x (product_group c ws) <-> In x ws /\ ProductCategory x = Some c.
Proof. unfold product_group. rewrite filter_In, has_category_true. reflexivity. Qed.

(** A piece of one category's subsequence, seen through the filter of a
    category: itself, or nothing. *)
Lemma product_group_piece_same c ws piece :
  (forall x, In x piece -> In x (product_group c ws)) ->
  product_group c piece = piece.
Proof.
  intros H. apply filter_all, Forall_forall. intros x Hx.
  apply H, product_group_In in Hx. now apply has_category_true.
Qed.

Lemma product_group_piece_other c c' ws piece :
  c <> c' ->
  (forall x, In x piece -> In x (product_group c' ws)) ->
  product_group c piece = [].
Proof.
  intros Hc H. apply filter_none, Forall_forall. intros x Hx.
  apply H, product_group_In in Hx. destruct Hx as [_ Hx].
  destruct (has_category ProductCategory c x) eqn:E; [|reflexivity].
  apply has_category_true in E. congruence.
Qed.

Lemma length_firstn_taken c ws :
  List.length (firstn (taken c ws) (product_group c ws)) = taken c ws.
Proof.
  destruct c; unfold taken, taken_Hourly, taken_HalfHourly, taken_QuarterHourly;
    now rewrite firstn_length_idem.
Qed.

Lemma product_group_app c l l' :
  product_group c (l ++ l') = product_group c l ++ product_group c l'.
Proof. apply filter_app. Qed.

Lemma product_group_firstn_same c k ws :
  product_group c (firstn k (product_group c ws)) = firstn k (product_group c ws).
Proof.
  apply product_group_piece_same with (ws := ws). intros x. apply firstn_In_incl.
Qed.

Lemma product_group_skipn_same c k ws :
  product_group c (skipn k (product_group c ws)) = skipn k (product_group c ws).
Proof.
  apply product_group_piece_same with (ws := ws). intros x. apply skipn_In_incl.
Qed.

Lemma product_group_firstn_other c c' k ws :
  c <> c' -> product_group c (firstn k (product_group c' ws)) = [].
Proof.
  intros Hc. apply product_group_piece_other with (c' := c') (ws := ws);
    [assumption|]. intros x. apply firstn_In_incl.
Qed.

Lemma product_group_skipn_other c c' k ws :
  c <> c' -> product_group c (skipn k (product_group c' ws)) = [].
Proof.
  intros Hc. apply product_group_piece_other with (c' := c') (ws := ws);
    [assumption|]. intros x. apply skipn_In_incl.
Qed.

(** Per category, the allocated records of a bucket are the first [taken]
    records of the category's subsequence of the working set, and the
    unallocated ones are the rest of that subsequence. *)
Lemma allocated_of_category dataset strat ub thr group c :
  let self := __init__ dataset strat ub thr in
  let ws := working_set self group in
  product_group c (fst (bucket_outputs self group))
  = firstn (taken c ws) (product_group c ws).
Proof.
  intros self ws. unfold self. rewrite bucket_outputs_init. fold self. fold ws.
  cbn [fst]. rewrite !product_group_app.
  destruct c; cbn [taken];
    rewrite product_group_firstn_same;
    rewrite !product_group_firstn_other by discriminate;
    now rewrite ?app_nil_r.
Qed.

Lemma unallocated_of_category dataset strat ub thr group c :
  let self := __init__ dataset strat ub thr in
  let ws := working_set self group in
  product_group c (snd (bucket_outputs self group))
  = skipn (taken c ws) (product_group c ws).
Proof.
  intros self ws. unfold self. rewrite bucket_outputs_init. fold self. fold ws.
  cbn [snd]. rewrite !product_group_app.
  destruct c; cbn [taken];
    rewrite product_group_skipn_same;
    rewrite !product_group_skipn_other by discriminate;
    now rewrite ?app_nil_r.
Qed.

Lemma count_category_allocated dataset strat ub thr group c :
  let self := __init__ dataset strat ub thr in
  count_category c (fst (bucket_outputs self group))
  = Z.of_nat (taken c (working_set self group)).
Proof.
  intros self. unfold count_category.
  change (filter (has_category ProductCategory c) (fst (bucket_outputs self group)))
    with (product_group c (fst (bucket_outputs self group))).
  unfold self. rewrite allocated_of_category. now rewrite length_firstn_taken.
Qed.

Lemma length_allocated dataset strat ub thr group :
  let self := __init__ dataset strat ub thr in
  let ws := working_set self group in
  List.length (fst (bucket_outputs self group))
  = (taken_Hourly ws + taken_HalfHourly ws + taken_QuarterHourly ws)%nat.
Proof.
  intros self ws. unfold self. rewrite bucket_outputs_init. fold self. fold ws.
  cbn [fst]. rewrite !length_app.
  rewrite (length_firstn_taken Hourly), (length_firstn_taken HalfHourly),
    (length_firstn_taken QuarterHourly).
  cbn [taken]. lia.
Qed.

(** The message count with which the loop reaches each category. *)
Lemma message_count_before dataset strat ub thr group c :
  let self := __init__ dataset strat ub thr in
  let ws := working_set self group in
  message_count (state_before self group c)
  = match c with
    | Hourly => 0
    | HalfHourly => Z.of_nat (taken_Hourly ws)
    | QuarterHourly => Z.of_nat (taken_Hourly ws) + Z.of_nat (taken_HalfHourly ws)
    end.
Proof.
  intros self ws. unfold state_before.
  destruct c; cbn [items_before trade_limits self __init__ category_eqb fst].
  - reflexivity.
  - reflexivity.
  - assert (Hnd : NoDup (map fst [(Hourly, 48); (HalfHourly, 96)])).
    { repeat constructor; simpl; intuition discriminate. }
    destruct (fold_flush_step self _ Hnd (mk_flush (working_set self group) 0 [] []))
      as (_ & _ & Hm).
    cbv zeta in Hm. rewrite Hm. clear Hm Hnd.
    cbn [allocate_by self __init__ max_messages_per_minute message_count buffer fst snd].
    fold ws. fold (product_group Hourly ws) (product_group HalfHourly ws).
    pose proof (taken_Hourly_le ws) as HH.
    replace (slice_to (Z.min 48 (Z.max 0 (60 - 0))) (product_group Hourly ws))
      with (firstn 48 (product_group Hourly ws))
      by (rewrite slice_to_nonneg by lia; reflexivity).
    fold (taken_Hourly ws).
    replace (slice_to (Z.min 96 (Z.max 0 (60 - (0 + Z.of_nat (taken_Hourly ws)))))
                      (product_group HalfHourly ws))
      with (firstn (Z.to_nat (Z.min 96 (60 - Z.of_nat (taken_Hourly ws))))
                   (product_group HalfHourly ws))
      by (rewrite slice_to_nonneg by lia; f_equal; lia).
    rewrite !length_app. fold (taken_Hourly ws). fold (taken_HalfHourly ws).
    cbn [List.length]. lia.
Qed.

Lemma remaining_limit_at_init dataset strat ub thr group c :
  let self := __init__ dataset strat ub thr in
  let ws := working_set self group in
  remaining_limit_at self group c
  = match c with
    | Hourly => 60
    | HalfHourly => 60 - Z.of_nat (taken_Hourly ws)
    | QuarterHourly => 60 - Z.of_nat (taken_Hourly ws) - Z.of_nat (taken_HalfHourly ws)
    end.
Proof.
  intros self ws. unfold remaining_limit_at, self.
  rewrite message_count_before. fold self. fold ws.
  pose proof (taken_Hourly_le ws). pose proof (taken_HalfHourly_le ws).
  cbn [max_messages_per_minute self __init__]. destruct c; lia.
Qed.

Lemma limit_of_init dataset strat ub thr c :
  limit_of (__init__ dataset strat ub thr) c
  = match c with Hourly => 48 | HalfHourly => 96 | QuarterHourly => 192 end.
Proof. destruct c; reflexivity. Qed.

(** ** Quotas and the global cap *)

(** C5: in every bucket and for every category [c], the number of allocated
    records of category [c] is at most the minimum of the category's limit
    (48 for Hourly, 96 for HalfHourly, 192 for QuarterHourly) and of the
    remaining limit computed when the loop reaches [c]; hence it is at most
    the category's limit, and the bucket allocates at most 60 records. *)
Theorem allocated_within_limits dataset strat ub thr (group : list trade) (c : category) :
  let self := __init__ dataset strat ub thr in
  let allocated := fst (bucket_outputs self group) in
  count_category c allocated
    <= Z.min (limit_of self c) (remaining_limit_at self group c)
  /\ limit_of self c
     = match c with Hourly => 48 | HalfHourly => 96 | QuarterHourly => 192 end
  /\ count_category c allocated <= limit_of self c
  /\ Z.of_nat (List.length allocated) <= 60.
Proof.
  intros self allocated. unfold allocated, self.
  rewrite count_category_allocated, remaining_limit_at_init, limit_of_init,
    length_allocated.
  fold self. set (ws := working_set self group).
  pose proof (taken_Hourly_le ws). pose proof (taken_HalfHourly_le ws).
  pose proof (taken_QuarterHourly_le ws).
  destruct c; cbn [taken]; repeat split; lia.
Qed.

(** ** [sorted] is a stable sort *)
Section StableSortFacts.

Context {A : Type} (key : A -> Z).

Lemma insert_sorted_perm (x : A) (l : list A) :
  Permutation (insert_sorted key x l) (x :: l).
Proof.
  induction l as [|y l IH]; simpl; [reflexivity|].
  destruct (key x <=? key y); [reflexivity|].
  rewrite IH. apply perm_swap.
Qed.

Lemma sorted_perm (l : list A) : Permutation (sorted key l) l.
Proof.
  induction l as [|x l IH]; simpl; [reflexivity|].
  rewrite insert_sorted_perm. now constructor.
Qed.

Lemma insert_sorted_ascending (x : A) (l : list A) :
  StronglySorted (key_le key) l -> StronglySorted (key_le key) (insert_sorted key x l).
Proof.
  induction 1 as [|y l Hs IH Hy]; simpl.
  - repeat constructor.
  - destruct (Z.leb_spec (key x) (key y)) as [Hle|Hgt].
    + constructor; [now constructor|].
      constructor; [exact Hle|].
      eapply Forall_impl; [|exact Hy]. unfold key_le. intros z Hz. lia.
    + constructor; [exact IH|].
      eapply Permutation_Forall; [symmetry; apply insert_sorted_perm|].
      constructor; [unfold key_le; lia | exact Hy].
Qed.

Lemma sorted_ascending (l : list A) : StronglySorted (key_le key) (sorted key l).
Proof.
  induction l as [|x l IH]; simpl; [constructor|].
  now apply insert_sorted_ascending.
Qed.

(** Stability: records with the same key keep their relative order. *)
Lemma insert_sorted_same_key (v : Z) (x : A) (l : list A) :
  filter (fun y => key y =? v) (insert_sorted key x l)
  = filter (fun y => key y =? v) (x :: l).
Proof.
  induction l as [|y l IH]; [reflexivity|].
  cbn [insert_sorted].
  destruct (Z.leb_spec (key x) (key y)) as [Hle|Hgt]; [reflexivity|].
  cbn [filter] in IH |- *. rewrite IH.
  destruct (Z.eqb_spec (key x) v) as [Hx|Hx]; [|reflexivity].
  destruct (Z.eqb_spec (key y) v) as [Hy|Hy]; [lia | reflexivity].
Qed.

Lemma sorted_stable (v : Z) (l : list A) :
  filter (fun y => key y =? v) (sorted key l) = filter (fun y => key y =? v) l.
Proof.
  induction l as [|x l IH]; [reflexivity|].
  cbn [sorted fold_right]. fold (sorted key l).
  rewrite insert_sorted_same_key. cbn [filter]. now rewrite IH.
Qed.

End StableSortFacts.

(** Sorting commutes with a projection that carries the key. *)
Lemma sorted_map {A B : Type} (f : A -> B) (key : B -> Z) (l : list A) :
  map f (sorted (fun x => key (f x)) l) = sorted key (map f l).
Proof.
  induction l as [|x l IH]; [reflexivity|].
  cbn [sorted fold_right map].
  fold (sorted (fun x => key (f x)) l). fold (sorted key (map f l)).
  rewrite <- IH. generalize (sorted (fun x => key (f x)) l). intros s.
  induction s as [|y s IHs]; [reflexivity|].
  cbn [insert_sorted map]. destruct (key (f x) <=? key (f y)); [reflexivity|].
  cbn [map]. now rewrite IHs.
Qed.

(** ** [allocate_by] on positions *)
Section AllocateByFacts.

Context {A : Type} (cat : A -> option category) (cap : Z).

Lemma filter_disjoint_perm (p q : A -> bool) (l : list A) :
  (forall x, p x = true -> q x = false) ->
  Permutation (filter p l ++ filter q l) (filter (fun x => p x || q x) l).
Proof.
  intros H. induction l as [|x l IH]; simpl; [reflexivity|].
  destruct (p x) eqn:Hp; simpl.
  - rewrite (H x Hp). now constructor.
  - destruct (q x); [|exact IH].
    rewrite <- IH. symmetry. apply Permutation_middle.
Qed.

(** The two outputs together are the elements whose label is a key of
    [limits], each once. *)
Lemma allocate_by_perm (limits : list (category * Z)) :
  NoDup (map fst limits) ->
  forall count ws,
    let r := allocate_by cat cap limits count ws in
    Permutation (fst r ++ snd r) (filter (in_limits cat limits) ws).
Proof.
  induction limits as [|[c limit] rest IH]; intros Hnd count ws.
  - simpl. induction ws; simpl; [constructor | assumption].
  - inversion Hnd as [|? ? Hnotin Hnd']; subst.
    cbn [allocate_by fst snd]. cbv zeta.
    set (g := filter (has_category cat c) ws).
    set (a := slice_to _ g).
    specialize (IH Hnd' (count + Z.of_nat (List.length a)) ws). cbv zeta in IH.
    rewrite <- app_assoc.
    rewrite (Permutation_app_swap_app (fst _) (slice_from _ g) (snd _)).
    rewrite app_assoc. unfold a at 1 2. rewrite slice_split.
    rewrite IH. unfold g.
    apply (filter_disjoint_perm (has_category cat c) (in_limits cat rest)).
    intros x Hx. apply has_category_true in Hx.
    destruct (in_limits cat rest x) eqn:E; [|reflexivity].
    exfalso. apply Hnotin.
    apply existsb_exists in E. destruct E as [item [Hitem Hcat]].
    apply has_category_true in Hcat.
    replace c with (fst item) by congruence. now apply in_map.
Qed.

End AllocateByFacts.

(** [allocate_by] commutes with a projection that carries the label. *)
Lemma allocate_by_map {A B : Type} (f : A -> B) (cat : B -> option category) cap limits :
  forall count (l : list A),
    let r := allocate_by (fun x => cat (f x)) cap limits count l in
    allocate_by cat cap limits count (map f l) = (map f (fst r), map f (snd r)).
Proof.
  induction limits as [|[c limit] rest IH]; intros count l; [reflexivity|].
  cbn [allocate_by fst snd]. cbv zeta.
  assert (Hf : filter (has_category cat c) (map f l)
               = map f (filter (has_category (fun x => cat (f x)) c) l)).
  { unfold has_category. apply filter_map_swap. }
  rewrite Hf.
  assert (Hs : forall n (m : list A), slice_to n (map f m) = map f (slice_to n m)).
  { intros n m. unfold slice_to. rewrite length_map.
    destruct (n <? 0); apply firstn_map. }
  rewrite Hs, length_map. unfold slice_from. rewrite skipn_map.
  rewrite IH. cbv zeta. cbn [fst snd]. now rewrite !map_app.
Qed.

(** ** Buckets *)

Lemma insert_key_In (k k' : Z) (ks : list Z) :
  In k' (insert_key k ks) <-> k' = k \/ In k' ks.
Proof.
  induction ks as [|x ks IH]; simpl; [intuition|].
  destruct (Z.ltb_spec k x); simpl; [intuition|].
  destruct (Z.eqb_spec k x); simpl; [subst; intuition|].
  rewrite IH. intuition.
Qed.

Lemma insert_key_ascending (k : Z) (ks : list Z) :
  StronglySorted Z.lt ks -> StronglySorted Z.lt (insert_key k ks).
Proof.
  induction 1 as [|x ks Hs IH Hx]; simpl.
  - repeat constructor.
  - destruct (Z.ltb_spec k x).
    + constructor; [now constructor|].
      constructor; [assumption|].
      eapply Forall_impl; [|exact Hx]. intros z Hz. simpl in Hz. lia.
    + destruct (Z.eqb_spec k x); [now constructor|].
      constructor; [exact IH|].
      apply Forall_forall. intros z Hz. apply insert_key_In in Hz.
      destruct Hz as [->|Hz]; [lia|].
      rewrite Forall_forall in Hx. now apply Hx.
Qed.

Lemma unique_sorted_ascending (l : list Z) : StronglySorted Z.lt (unique_sorted l).
Proof.
  induction l as [|k l IH]; simpl; [constructor|]. now apply insert_key_ascending.
Qed.

Lemma unique_sorted_In (k : Z) (l : list Z) : In k (unique_sorted l) <-> In k l.
Proof.
  induction l as [|x l IH]; simpl; [reflexivity|].
  rewrite insert_key_In, IH. intuition.
Qed.

(** The buckets come in strictly ascending order of their minute. *)
Lemma groupby_Minute_ascending rows :
  StronglySorted Z.lt (map fst (groupby_Minute rows)).
Proof.
  unfold groupby_Minute. rewrite map_map. cbn [fst]. rewrite map_id.
  apply unique_sorted_ascending.
Qed.

(** A bucket holds the rows of its minute, in frame order. *)
Lemma groupby_Minute_In rows m group :
  In (m, group) (groupby_Minute rows) ->
  group = filter (Minute_is m) rows /\ In m (Minute_keys rows).
Proof.
  unfold groupby_Minute. intros H. apply in_map_iff in H.
  destruct H as [k [Hk Hin]]. inversion Hk; subst.
  split; [reflexivity|]. now apply unique_sorted_In.
Qed.

Lemma Minute_is_true k r : Minute_is k r = true <-> Minute r = Some k.
Proof. unfold Minute_is. apply option_eqb_Z_eq. Qed.

(** Rows of the frame of an object built by [__init__], after line 52. *)
Lemma data_assign_Minute_In dataset strat ub thr r :
  In r (data (assign_Minute (__init__ dataset strat ub thr))) ->
  exists d, In d dataset
    /\ r = mk_trade (ds_TransactionTime_parsed d) (ds_ProductFromUTC d)
                    (ds_ProductTimeDiffMinutes d) (ds_QuantityMWh d)
                    (category_of_minutes (ds_ProductTimeDiffMinutes d))
                    (Some (floor_T (ds_TransactionTime_parsed d))) None.
Proof.
  cbn [assign_Minute set_data data __init__]. unfold _load_data. rewrite map_map.
  intros H. apply in_map_iff in H. destruct H as [d [Hd Hin]].
  exists d. split; [assumption|]. now rewrite <- Hd.
Qed.

Lemma grouped_In dataset strat ub thr m group r :
  In (m, group) (grouped (__init__ dataset strat ub thr)) ->
  In r group ->
  Minute r = Some m
  /\ exists d, In d dataset
    /\ r = mk_trade (ds_TransactionTime_parsed d) (ds_ProductFromUTC d)
                    (ds_ProductTimeDiffMinutes d) (ds_QuantityMWh d)
                    (category_of_minutes (ds_ProductTimeDiffMinutes d))
                    (Some (floor_T (ds_TransactionTime_parsed d))) None.
Proof.
  unfold grouped. intros Hg Hr. apply groupby_Minute_In in Hg.
  destruct Hg as [-> _]. apply filter_In in Hr. destruct Hr as [Hr Hm].
  split; [now apply Minute_is_true|]. now apply data_assign_Minute_In in Hr.
Qed.

Lemma category_of_minutes_recognized d :
  In d [15; 30; 60] -> exists c, category_of_minutes d = Some c.
Proof.
  simpl. intros [<-|[<-|[<-|[]]]]; eexists; reflexivity.
Qed.

Lemma category_of_minutes_unrecognized d :
  ~ In d [15; 30; 60] -> category_of_minutes d = None.
Proof.
  simpl. intros H. unfold category_of_minutes.
  destruct (Z.eqb_spec d 15); [lia|].
  destruct (Z.eqb_spec d 30); [lia|].
  destruct (Z.eqb_spec d 60); [lia|]. reflexivity.
Qed.

Lemma category_of_minutes_Some d c :
  category_of_minutes d = Some c -> In d [15; 30; 60].
Proof.
  unfold category_of_minutes. simpl.
  destruct (Z.eqb_spec d 15); [lia|].
  destruct (Z.eqb_spec d 30); [lia|].
  destruct (Z.eqb_spec d 60); [lia|]. discriminate.
Qed.

(** ** Partition of a bucket *)

Lemma map_snd_combine_seq {A : Type} (l : list A) :
  forall start, map snd (combine (seq start (List.length l)) l) = l.
Proof.
  induction l as [|x l IH]; intros start; simpl; [reflexivity|]. now rewrite IH.
Qed.

Lemma map_snd_positioned group : map snd (positioned group) = group.
Proof. apply map_snd_combine_seq. Qed.

Lemma working_set_unbuffered dataset strat thr group :
  working_set (__init__ dataset strat false thr) group
  = if String.eqb strat "MaxMW"
    then sorted (fun x => - QuantityMWh x) group
    else group.
Proof. reflexivity. Qed.

(** With every label recognized and no buffering, the outputs of a bucket
    are the two halves of a split of its positioned records. *)
Lemma bucket_outputs_positions dataset strat thr group :
  (forall r, In r group -> exists c, ProductCategory r = Some c) ->
  let out := bucket_outputs (__init__ dataset strat false thr) group in
  exists pa pu : list (nat * trade),
    Permutation (pa ++ pu) (positioned group)
    /\ fst out = map snd pa /\ snd out = map snd pu.
Proof.
  intros Hcat out.
  set (il := positioned group).
  set (iws := if String.eqb strat "MaxMW"
              then sorted (fun p : nat * trade => - QuantityMWh (snd p)) il
              else il).
  assert (Hperm : Permutation iws il).
  { unfold iws. destruct (String.eqb strat "MaxMW"); [apply sorted_perm | reflexivity]. }
  assert (Hws : working_set (__init__ dataset strat false thr) group = map snd iws).
  { rewrite working_set_unbuffered. unfold iws.
    destruct (String.eqb strat "MaxMW").
    - rewrite (sorted_map snd (fun x => - QuantityMWh x)).
      unfold il. now rewrite map_snd_positioned.
    - unfold il. now rewrite map_snd_positioned. }
  unfold out. rewrite bucket_outputs_spec by apply init_keys_distinct.
  rewrite Hws, allocate_by_map. cbv zeta. cbn [fst snd].
  eexists. eexists. split; [|split; reflexivity].
  rewrite allocate_by_perm by apply init_keys_distinct.
  rewrite filter_all; [exact Hperm|].
  apply Forall_forall. intros [i r] Hp.
  assert (Hr : In r group).
  { apply (Permutation_in _ Hperm) in Hp. unfold il, positioned in Hp.
    now apply in_combine_r in Hp. }
  destruct (Hcat r Hr) as [c Hc].
  unfold in_limits, has_category. cbn [existsb __init__ trade_limits fst snd].
  rewrite Hc. destruct c; reflexivity.
Qed.

(** C4: with buffering off and every interval length among 15, 30 and 60,
    in every bucket the allocated and the unallocated records together are
    the records of the bucket, each as often as it occurs there; and every
    position of the bucket goes to exactly one of the two outputs. *)
Theorem bucket_partition dataset strat thr m group :
  Forall (fun d => In (ds_ProductTimeDiffMinutes d) [15; 30; 60]) dataset ->
  let self := __init__ dataset strat false thr in
  In (m, group) (grouped self) ->
  let out := bucket_outputs self group in
  Permutation (fst out ++ snd out) group
  /\ exists pa pu : list (nat * trade),
       Permutation (pa ++ pu) (positioned group)
       /\ NoDup (map fst (pa ++ pu))
       /\ fst out = map snd pa /\ snd out = map snd pu.
Proof.
  intros Hds self Hin out.
  assert (Hcat : forall r, In r group -> exists c, ProductCategory r = Some c).
  { intros r Hr. destruct (grouped_In _ _ _ _ _ _ _ Hin Hr) as [_ [d [Hd ->]]].
    cbn [ProductCategory]. apply category_of_minutes_recognized.
    rewrite Forall_forall in Hds. now apply Hds. }
  destruct (bucket_outputs_positions dataset strat thr group Hcat)
    as (pa & pu & Hperm & Ha & Hu).
  fold self in Ha, Hu. fold out in Ha, Hu.
  split.
  - rewrite Ha, Hu, <- map_app, <- (map_snd_positioned group).
    now apply Permutation_map.
  - exists pa, pu. repeat split; try assumption.
    apply (Permutation_NoDup (l := map fst (positioned group))).
    + symmetry. now apply Permutation_map.
    + unfold positioned.
      assert (Hfst : forall (l : list trade) start,
                 map fst (combine (seq start (List.length l)) l)
                 = seq start (List.length l)).
      { induction l as [|x l IH]; intros start; simpl; [reflexivity|].
        now rewrite IH. }
      rewrite Hfst. apply seq_NoDup.
Qed.

(** ** Where the records of the outputs come from *)

Lemma apply_strategy_perm self b : Permutation (apply_strategy self b) b.
Proof.
  unfold apply_strategy. destruct (String.eqb (strategy self) "MaxMW");
    [apply sorted_perm | reflexivity].
Qed.

Lemma urgency_of_set_Urgency u r : urgency_of (set_Urgency u r) = urgency_of r.
Proof. reflexivity. Qed.

Lemma initial_buffer_buffered_In self group x :
  use_buffer self = true ->
  (In x (initial_buffer self group) <->
   exists r, In r group /\ x = set_Urgency (urgency_of r) r
             /\ urgency_of r <= buffer_threshold self).
Proof.
  intros Hb. unfold initial_buffer. rewrite Hb. cbv zeta.
  rewrite filter_In, in_map_iff. split.
  - intros [[r [Hx Hr]] Hle]. exists r. subst x.
    unfold Urgency_le in Hle. cbn [Urgency set_Urgency] in Hle.
    apply Z.leb_le in Hle. auto.
  - intros [r (Hr & -> & Hle)]. split; [eauto|].
    unfold Urgency_le. cbn [Urgency set_Urgency]. now apply Z.leb_le.
Qed.

Lemma initial_buffer_source self group x :
  In x (initial_buffer self group) ->
  exists r, In r group /\ (x = r \/ x = set_Urgency (urgency_of r) r).
Proof.
  destruct (use_buffer self) eqn:Hb.
  - intros H. apply (initial_buffer_buffered_In self group x Hb) in H.
    destruct H as [r (Hr & Hx & _)]. eauto.
  - unfold initial_buffer. rewrite Hb. eauto.
Qed.

Lemma working_set_In self group x :
  In x (working_set self group) <-> In x (initial_buffer self group).
Proof.
  unfold working_set. split; apply Permutation_in;
    [|symmetry]; apply apply_strategy_perm.
Qed.

(** A record of either output of a bucket is a record of the working set
    with a recognized label. *)
Lemma bucket_outputs_In dataset strat ub thr group x :
  let self := __init__ dataset strat ub thr in
  In x (fst (bucket_outputs self group) ++ snd (bucket_outputs self group)) ->
  In x (working_set self group) /\ exists c, ProductCategory x = Some c.
Proof.
  intros self. unfold self. rewrite bucket_outputs_init. fold self. cbn [fst snd].
  rewrite !in_app_iff.
  intros H.
  assert (Hpg : exists c, In x (product_group c (working_set self group))).
  { destruct H as [[H|[H|H]]|[H|[H|H]]];
      (apply firstn_In_incl in H || apply skipn_In_incl in H); eauto. }
  destruct Hpg as [c Hc]. apply product_group_In in Hc. destruct Hc. eauto.
Qed.

(** A record of one of the final lists comes out of some bucket. *)
Lemma simulate_allocation_locals_In dataset strat ub thr x :
  let self := __init__ dataset strat ub thr in
  In x (fst (snd (simulate_allocation_locals self))
        ++ snd (snd (simulate_allocation_locals self))) ->
  exists m group, In (m, group) (grouped self)
    /\ In x (fst (bucket_outputs self group) ++ snd (bucket_outputs self group)).
Proof.
  intros self. unfold self.
  rewrite simulate_allocation_locals_spec by apply init_keys_distinct.
  fold self. cbn [fst snd]. rewrite in_app_iff, !in_concat.
  intros [[l [Hl Hx]]|[l [Hl Hx]]]; apply in_map_iff in Hl;
    destruct Hl as [[m group] [<- Hg]]; exists m, group;
    (split; [exact Hg|]); apply in_or_app; [left|right]; exact Hx.
Qed.

(** ** The buffering filter *)

(** C6: with [use_buffer] on and a threshold of [t] minutes, a trade of a
    bucket whose urgency exceeds the threshold is in neither output of the
    bucket (no record of either output has an urgency above the threshold),
    and a trade whose urgency is at most the threshold enters the bucket's
    working set, with its urgency attached. *)
Theorem buffer_filter dataset strat t (group : list trade) (r : trade) :
  In r group ->
  let self := __init__ dataset strat true t in
  let out := bucket_outputs self group in
  let record := set_Urgency (urgency_of r) r in
  (urgency_of r > timedelta_minutes t ->
     ~ In record (fst out) /\ ~ In record (snd out)
     /\ ~ In r (fst out) /\ ~ In r (snd out))
  /\ (urgency_of r <= timedelta_minutes t -> In record (working_set self group))
  /\ (forall x, In x (fst out ++ snd out) -> urgency_of x <= timedelta_minutes t).
Proof.
  intros Hr self out record.
  assert (Hall : forall x, In x (fst out ++ snd out) ->
                           urgency_of x <= timedelta_minutes t).
  { intros x Hx. apply bucket_outputs_In in Hx. destruct Hx as [Hx _].
    apply working_set_In in Hx.
    apply (initial_buffer_buffered_In self group x eq_refl) in Hx.
    destruct Hx as [r' (_ & -> & Hle)]. rewrite urgency_of_set_Urgency. exact Hle. }
  split; [|split; [|exact Hall]].
  - intros Hgt.
    assert (Hno : forall x, urgency_of x = urgency_of r -> ~ In x (fst out ++ snd out)).
    { intros x Hx Hin. apply Hall in Hin. lia. }
    pose proof (Hno record (urgency_of_set_Urgency _ r)) as Hrecord.
    pose proof (Hno r eq_refl) as Hraw.
    rewrite in_app_iff in Hrecord, Hraw. tauto.
  - intros Hle. apply working_set_In.
    apply (initial_buffer_buffered_In self group record eq_refl).
    exists r. auto.
Qed.

(** ** Unrecognized interval lengths *)

(** A record of either final list has the label of its interval length. *)
Lemma output_label dataset strat ub thr x :
  let self := __init__ dataset strat ub thr in
  In x (fst (snd (simulate_allocation_locals self))
        ++ snd (snd (simulate_allocation_locals self))) ->
  exists c, ProductCategory x = Some c
            /\ category_of_minutes (ProductTimeDiffMinutes x) = Some c.
Proof.
  intros self Hx. apply simulate_allocation_locals_In in Hx.
  destruct Hx as (m & group & Hg & Hx).
  apply bucket_outputs_In in Hx. destruct Hx as [Hws [c Hc]].
  exists c. split; [exact Hc|].
  apply working_set_In, initial_buffer_source in Hws.
  destruct Hws as [r [Hr Hx]].
  destruct (grouped_In _ _ _ _ _ _ _ Hg Hr) as [_ [d [_ Hd]]].
  destruct Hx as [->| ->]; rewrite Hd in Hc |- *; exact Hc.
Qed.

(** C7: a trade of the dataset whose interval length is none of 15, 30 and
    60 gets no label, and no record of the allocated or of the unallocated
    list carries its column values, whatever the strategy and the buffering
    settings. *)
Theorem unrecognized_interval_excluded dataset strat ub thr (d : dataset_row) :
  In d dataset ->
  ~ In (ds_ProductTimeDiffMinutes d) [15; 30; 60] ->
  let self := __init__ dataset strat ub thr in
  let locals := snd (simulate_allocation_locals self) in
  (exists r, In r (data self) /\ dataset_columns r = d)
  /\ (forall r, In r (data self) -> dataset_columns r = d -> ProductCategory r = None)
  /\ (forall x, In x (fst locals) -> dataset_columns x <> d)
  /\ (forall x, In x (snd locals) -> dataset_columns x <> d).
Proof.
  intros Hd Hun self locals.
  assert (Hout : forall x, In x (fst locals ++ snd locals) -> dataset_columns x <> d).
  { intros x Hx Heq. apply output_label in Hx. destruct Hx as (c & _ & Hc).
    apply category_of_minutes_Some in Hc. apply Hun.
    now rewrite <- Heq. }
  repeat split.
  - exists (mk_trade (ds_TransactionTime_parsed d) (ds_ProductFromUTC d)
                     (ds_ProductTimeDiffMinutes d) (ds_QuantityMWh d)
                     (category_of_minutes (ds_ProductTimeDiffMinutes d)) None None).
    split; [|now destruct d].
    cbn [self __init__ data]. unfold _load_data.
    apply in_map_iff. exists d. auto.
  - intros r Hr Heq. cbn [self __init__ data] in Hr. unfold _load_data in Hr.
    apply in_map_iff in Hr. destruct Hr as [d' [<- _]].
    cbn [ProductCategory]. apply category_of_minutes_unrecognized.
    unfold dataset_columns in Heq. cbn in Heq. rewrite <- Heq in Hun. exact Hun.
  - intros x Hx. apply Hout, in_or_app. now left.
  - intros x Hx. apply Hout, in_or_app. now right.
Qed.

(** ** Order of the unallocated output *)

(** C10: the unallocated output is the concatenation of the buckets'
    unallocated records, the buckets in strictly ascending order of their
    minute; a bucket holds the rows of its minute in frame order; and the
    unallocated records of a bucket are the unallocated Hourly records, then
    the HalfHourly ones, then the QuarterHourly ones, each the tail of that
    category's subsequence of the working set. *)
Theorem unallocated_order dataset strat ub thr :
  let self := __init__ dataset strat ub thr in
  records (snd (simulate_allocation self))
  = List.concat (map (fun g => snd (bucket_outputs self (snd g))) (grouped self))
  /\ StronglySorted Z.lt (map fst (grouped self))
  /\ Forall (fun g => snd g = filter (Minute_is (fst g)) (data (assign_Minute self)))
            (grouped self)
  /\ forall group,
       let ws := working_set self group in
       ws = apply_strategy self (initial_buffer self group)
       /\ snd (bucket_outputs self group)
          = skipn (taken Hourly ws) (product_group Hourly ws)
            ++ skipn (taken HalfHourly ws) (product_group HalfHourly ws)
            ++ skipn (taken QuarterHourly ws) (product_group QuarterHourly ws).
Proof.
  intros self. repeat split.
  - unfold simulate_allocation, self.
    rewrite simulate_allocation_locals_spec by apply init_keys_distinct.
    reflexivity.
  - apply groupby_Minute_ascending.
  - apply Forall_forall. intros [m group] Hg.
    apply groupby_Minute_In in Hg. now destruct Hg.
  - unfold self. now rewrite bucket_outputs_init.
Qed.

(** ** The ordering step *)

(** C8: under "MaxMW" the ordering step returns the buffer sorted by
    descending volume, records of equal volume in their former order; under
    any other strategy it returns the buffer as it is.  In a bucket whose
    QuarterHourly trades have volumes 5, 50, 20 and are left a limit of 2,
    "MaxMW" allocates the trades of volume 50 and 20 and leaves the one of
    volume 5 unallocated. *)
Theorem ordering_step dataset ub thr (buffer : list trade) (strat : string) :
  strat <> "MaxMW" ->
  (let sorted_buffer := apply_strategy (__init__ dataset "MaxMW" ub thr) buffer in
   Permutation sorted_buffer buffer
   /\ StronglySorted descending_volume sorted_buffer
   /\ forall v, filter (fun x => QuantityMWh x =? v) sorted_buffer
                = filter (fun x => QuantityMWh x =? v) buffer)
  /\ apply_strategy (__init__ dataset strat ub thr) buffer = buffer
  /\ (let self := __init__ volumes_dataset "MaxMW" false 60 in
      let out := bucket_outputs self volumes_group in
      grouped self = [(0, volumes_group)]
      /\ map QuantityMWh (product_group QuarterHourly volumes_group) = [5; 50; 20]
      /\ remaining_limit_at self volumes_group QuarterHourly = 2
      /\ map QuantityMWh (product_group QuarterHourly (fst out)) = [50; 20]
      /\ map QuantityMWh (snd out) = [5]).
Proof.
  intros Hstrat. split; [|split].
  - cbv zeta. unfold apply_strategy. cbn [strategy __init__].
    change (String.eqb "MaxMW" "MaxMW") with true. cbv iota.
    split; [apply sorted_perm|]. split.
    + pose proof (sorted_ascending (fun x => - QuantityMWh x) buffer) as Hs.
      induction Hs as [|x l _ IH Hx]; constructor; [exact IH|].
      eapply Forall_impl; [|exact Hx].
      unfold key_le, descending_volume. intros y Hy. lia.
    + intros v.
      assert (Hext : forall x : trade,
                 (QuantityMWh x =? v) = (- QuantityMWh x =? - v)).
      { intros x. destruct (Z.eqb_spec (QuantityMWh x) v);
          destruct (Z.eqb_spec (- QuantityMWh x) (- v)); try reflexivity; lia. }
      rewrite !(filter_ext _ _ Hext).
      apply (sorted_stable (fun x => - QuantityMWh x) (- v)).
  - unfold apply_strategy. cbn [strategy __init__].
    destruct (String.eqb_spec strat "MaxMW"); [contradiction | reflexivity].
  - vm_compute. repeat split.
Qed.

Lemma ordering_step_witness :
  "FirstArrive" <> "MaxMW"
  /\ apply_strategy (__init__ volumes_dataset "FirstArrive" false 60) volumes_group
     = volumes_group.
Proof.
  assert (H : "FirstArrive" <> "MaxMW") by discriminate.
  split; [exact H|].
  exact (proj1 (proj2 (ordering_step volumes_dataset false 60 volumes_group
                                     "FirstArrive" H))).
Defined.

(** ** Category priority when the cap binds *)

Lemma count_category_perm c l l' :
  Permutation l l' -> count_category c l = count_category c l'.
Proof.
  intros H. unfold count_category. f_equal.
  induction H as [|x l l' _ IH|x y l|l l' l'' _ IH1 _ IH2]; simpl.
  - reflexivity.
  - destruct (has_category ProductCategory c x); simpl; now rewrite IH.
  - destruct (has_category ProductCategory c x), (has_category ProductCategory c y);
      reflexivity.
  - now rewrite IH1.
Qed.

Lemma count_category_working_set dataset strat thr group c :
  count_category c (working_set (__init__ dataset strat false thr) group)
  = count_category c group.
Proof. apply count_category_perm. unfold working_set. apply apply_strategy_perm. Qed.

Lemma count_category_product_group c ws :
  count_category c ws = Z.of_nat (List.length (product_group c ws)).
Proof. reflexivity. Qed.

Lemma count_category_unallocated dataset strat ub thr group c :
  let self := __init__ dataset strat ub thr in
  let ws := working_set self group in
  count_category c (snd (bucket_outputs self group))
  = count_category c ws - Z.of_nat (taken c ws).
Proof.
  intros self ws. unfold count_category at 1.
  change (filter (has_category ProductCategory c) (snd (bucket_outputs self group)))
    with (product_group c (snd (bucket_outputs self group))).
  unfold self. rewrite unallocated_of_category. fold self. fold ws.
  rewrite length_skipn, count_category_product_group.
  pose proof (length_firstn_taken c ws) as Hl. rewrite length_firstn in Hl. lia.
Qed.

Lemma length_unallocated dataset strat ub thr group :
  let self := __init__ dataset strat ub thr in
  let ws := working_set self group in
  Z.of_nat (List.length (snd (bucket_outputs self group)))
  = count_category Hourly (snd (bucket_outputs self group))
    + count_category HalfHourly (snd (bucket_outputs self group))
    + count_category QuarterHourly (snd (bucket_outputs self group)).
Proof.
  intros self ws. unfold count_category.
  change (filter (has_category ProductCategory ?c) ?l) with (product_group c l).
  unfold self. rewrite !unallocated_of_category. rewrite bucket_outputs_init.
  cbn [snd taken]. rewrite !length_app. lia.
Qed.

(** C1, as amended: in a bucket of 50 Hourly and 50 QuarterHourly trades,
    buffering off, the Hourly limit of 48 binds before the cap of 60 does:
    the allocated records are the first 48 Hourly trades followed by the
    first 12 QuarterHourly trades of the working set, and the unallocated
    records are the last 2 Hourly trades followed by the last 38
    QuarterHourly trades of the working set. *)
Theorem priority_under_cap dataset strat thr (group : list trade) :
  count_category Hourly group = 50 ->
  count_category HalfHourly group = 0 ->
  count_category QuarterHourly group = 50 ->
  let self := __init__ dataset strat false thr in
  let ws := working_set self group in
  let out := bucket_outputs self group in
  count_category Hourly (fst out) = 48
  /\ count_category HalfHourly (fst out) = 0
  /\ count_category QuarterHourly (fst out) = 12
  /\ Z.of_nat (List.length (fst out)) = 60
  /\ count_category Hourly (snd out) = 2
  /\ count_category QuarterHourly (snd out) = 38
  /\ Z.of_nat (List.length (snd out)) = 40
  /\ snd out = skipn 48 (product_group Hourly ws)
               ++ skipn 12 (product_group QuarterHourly ws)
  /\ fst out = firstn 48 (product_group Hourly ws)
               ++ firstn 12 (product_group QuarterHourly ws).
Proof.
  intros HH HHH HQ self ws out.
  rewrite <- (count_category_working_set dataset strat thr) in HH, HHH, HQ.
  fold self in HH, HHH, HQ. fold ws in HH, HHH, HQ.
  rewrite count_category_product_group in HH, HHH, HQ.
  assert (TH : taken_Hourly ws = 48%nat).
  { unfold taken_Hourly. rewrite length_firstn. lia. }
  assert (THH : taken_HalfHourly ws = 0%nat).
  { unfold taken_HalfHourly. rewrite length_firstn. lia. }
  assert (TQ : taken_QuarterHourly ws = 12%nat).
  { unfold taken_QuarterHourly. rewrite length_firstn, TH, THH. lia. }
  assert (Hnil : product_group HalfHourly ws = []).
  { destruct (product_group HalfHourly ws); [reflexivity | simpl in HHH; lia]. }
  unfold out, self.
  rewrite length_unallocated, !count_category_unallocated, !count_category_allocated,
    length_allocated.
  fold self. fold ws. cbn [taken]. rewrite TH, THH, TQ.
  rewrite !count_category_product_group.
  repeat split; try lia.
  - unfold self. rewrite bucket_outputs_init. fold self. fold ws. cbn [snd].
    rewrite TH, THH, TQ, Hnil. reflexivity.
  - unfold self. rewrite bucket_outputs_init. fold self. fold ws. cbn [fst].
    rewrite TH, THH, TQ, Hnil. reflexivity.
Qed.

Lemma priority_under_cap_witness :
  count_category Hourly priority_group = 50
  /\ count_category QuarterHourly (fst (bucket_outputs
        (__init__ priority_dataset "FirstArrive" false 60) priority_group)) = 12.
Proof.
  assert (HH : count_category Hourly priority_group = 50) by reflexivity.
  assert (HHH : count_category HalfHourly priority_group = 0) by reflexivity.
  assert (HQ : count_category QuarterHourly priority_group = 50) by reflexivity.
  split; [exact HH|].
  exact (proj1 (proj2 (proj2
           (priority_under_cap priority_dataset "FirstArrive" 60 priority_group
                               HH HHH HQ)))).
Defined.

(** C1 as it was stated fails on that bucket: it is the only bucket of the
    run, and the run does not allocate 50 Hourly and 10 QuarterHourly trades
    and leave 40 QuarterHourly trades. *)
Lemma priority_as_stated_fails :
  let self := __init__ priority_dataset "FirstArrive" false 60 in
  let locals := snd (simulate_allocation_locals self) in
  map fst (grouped self) = [0]
  /\ count_category Hourly priority_group = 50
  /\ count_category QuarterHourly priority_group = 50
  /\ ~ (count_category Hourly (fst locals) = 50
        /\ count_category QuarterHourly (fst locals) = 10
        /\ count_category QuarterHourly (snd locals) = 40
        /\ Z.of_nat (List.length (snd locals)) = 40
        /\ count_category Hourly (snd locals) = 0).
Proof.
  vm_compute. repeat split; try reflexivity.
  intros [H _]. discriminate H.
Qed.

(** ** The summary of an empty unallocated list *)

Lemma get_summary_raises self :
  snd (snd (simulate_allocation_locals self)) = [] ->
  snd (get_summary self) = inl (KeyError "ProductCategory").
Proof.
  unfold get_summary, simulate_allocation.
  destruct (simulate_allocation_locals self) as [self' [a u]]. cbn [snd].
  intros ->. reflexivity.
Qed.

(** C2, on the code: on the empty dataset, and on a dataset whose trades are
    all allocated, the unallocated frame has no column and [get_summary]
    raises [KeyError] on [groupby('ProductCategory')] instead of returning an
    empty mapping. *)
Theorem get_summary_empty_raises strat ub thr :
  records (snd (simulate_allocation (__init__ [] strat ub thr))) = []
  /\ snd (get_summary (__init__ [] strat ub thr)) = inl (KeyError "ProductCategory")
  /\ records (snd (simulate_allocation (__init__ one_trade_dataset "FirstArrive" false 60)))
     = []
  /\ snd (get_summary (__init__ one_trade_dataset "FirstArrive" false 60))
     = inl (KeyError "ProductCategory").
Proof. repeat split. Qed.

(** ** What [simulate_allocation] returns *)

(** C3 as it was stated fails: the allocated list cannot be read off the
    returned frame, since two runs return the same frame and allocate
    different lists. *)
Lemma allocated_not_observable :
  ~ exists observe : DataFrame -> list trade,
      forall self,
        observe (snd (simulate_allocation self))
        = fst (snd (simulate_allocation_locals self)).
Proof.
  intros [observe H].
  pose proof (H (__init__ [] "FirstArrive" false 60)) as H0.
  pose proof (H (__init__ one_trade_dataset "FirstArrive" false 60)) as H1.
  vm_compute in H0, H1. rewrite H0 in H1. discriminate H1.
Qed.

(** C3, as amended: [simulate_allocation] returns one collection, the frame
    of the unallocated records of all buckets in bucket order; the allocated
    list is a local that the method drops, and equal returned frames may
    come with different allocated lists. *)
Theorem simulate_allocation_returns_unallocated dataset strat ub thr :
  let self := __init__ dataset strat ub thr in
  snd (simulate_allocation self)
  = pd_DataFrame (snd (snd (simulate_allocation_locals self)))
  /\ records (snd (simulate_allocation self))
     = List.concat (map (fun g => snd (bucket_outputs self (snd g))) (grouped self))
  /\ fst (snd (simulate_allocation_locals self))
     = List.concat (map (fun g => fst (bucket_outputs self (snd g))) (grouped self))
  /\ exists self1 self2,
       snd (simulate_allocation self1) = snd (simulate_allocation self2)
       /\ fst (snd (simulate_allocation_locals self1))
          <> fst (snd (simulate_allocation_locals self2)).
Proof.
  intros self. unfold simulate_allocation, self.
  rewrite simulate_allocation_locals_spec by apply init_keys_distinct.
  cbn [fst snd]. repeat split.
  exists (__init__ [] "FirstArrive" false 60),
         (__init__ one_trade_dataset "FirstArrive" false 60).
  split; [reflexivity|]. vm_compute. discriminate.
Qed.

(** ** What [simulate_allocation] does to the object *)

(** C9 as it was stated fails: after a run the stored rows differ from the
    rows before it in a column other than [Urgency]. *)
Lemma Minute_column_added :
  let self := __init__ one_trade_dataset "FirstArrive" true 60 in
  let self' := fst (simulate_allocation self) in
  map Minute (data self) = [None]
  /\ map Minute (data self') = [Some 0]
  /\ map Urgency (data self') = [None]
  /\ ~ Forall2 same_except_Urgency (data self) (data self').
Proof.
  vm_compute. repeat split.
  intros H. inversion H as [|r r' l l' (_ & _ & Hm) _]; subst.
  discriminate Hm.
Qed.

(** C9, as amended: a run leaves every attribute of the object but [data]
    as it was, and [data] row for row as it was except for the [Minute]
    column, which it sets to the submission time floored to the minute; the
    urgency is attached to the records of a bucket only, never to the stored
    rows. *)
Theorem stored_data_after_allocation (self : TradeAllocationSimulation) :
  let self' := fst (simulate_allocation self) in
  strategy self' = strategy self
  /\ use_buffer self' = use_buffer self
  /\ buffer_threshold self' = buffer_threshold self
  /\ trade_limits self' = trade_limits self
  /\ max_messages_per_minute self' = max_messages_per_minute self
  /\ Forall2 Minute_attached (data self) (data self').
Proof.
  unfold simulate_allocation.
  destruct (simulate_allocation_locals self) as [self' [a u]] eqn:E.
  unfold simulate_allocation_locals in E. inversion E; subst. clear E.
  cbn [fst assign_Minute set_data strategy use_buffer buffer_threshold trade_limits
       max_messages_per_minute data].
  repeat split.
  generalize (data self). clear. intros l.
  induction l as [|r l IH]; cbn [map]; constructor.
  - repeat split.
  - exact IH.
Qed.

(** ** The theorems at concrete buckets *)

Lemma bucket_partition_witness :
  In (0, mixed_group) (grouped (__init__ mixed_dataset "MaxMW" false 60))
  /\ Permutation
       (fst (bucket_outputs (__init__ mixed_dataset "MaxMW" false 60) mixed_group)
        ++ snd (bucket_outputs (__init__ mixed_dataset "MaxMW" false 60) mixed_group))
       mixed_group.
Proof.
  assert (Hds : Forall (fun d => In (ds_ProductTimeDiffMinutes d) [15; 30; 60])
                       mixed_dataset).
  { repeat (apply Forall_cons; [simpl; lia|]). apply Forall_nil. }
  assert (Hin : In (0, mixed_group) (grouped (__init__ mixed_dataset "MaxMW" false 60))).
  { left. reflexivity. }
  split; [exact Hin|].
  exact (proj1 (bucket_partition mixed_dataset "MaxMW" 60 0 mixed_group Hds Hin)).
Defined.

Lemma buffer_filter_witness :
  (In late_trade urgency_group
   /\ urgency_of late_trade > timedelta_minutes 60
   /\ ~ In (set_Urgency (urgency_of late_trade) late_trade)
           (fst (bucket_outputs (__init__ urgency_dataset "FirstArrive" true 60)
                                urgency_group)))
  /\ (In due_trade urgency_group
      /\ urgency_of due_trade <= timedelta_minutes 60
      /\ In (set_Urgency (urgency_of due_trade) due_trade)
            (working_set (__init__ urgency_dataset "FirstArrive" true 60)
                         urgency_group)).
Proof.
  assert (Hlate : In late_trade urgency_group) by (left; reflexivity).
  assert (Hdue : In due_trade urgency_group) by (right; left; reflexivity).
  assert (Hgt : urgency_of late_trade > timedelta_minutes 60) by reflexivity.
  assert (Hle : urgency_of due_trade <= timedelta_minutes 60) by (vm_compute; discriminate).
  split; (split; [assumption|]); (split; [assumption|]).
  - exact (proj1 (proj1 (buffer_filter urgency_dataset "FirstArrive" 60
                                       urgency_group late_trade Hlate) Hgt)).
  - exact (proj1 (proj2 (buffer_filter urgency_dataset "FirstArrive" 60
                                       urgency_group due_trade Hdue)) Hle).
Defined.

Lemma unrecognized_interval_excluded_witness :
  In (mk_dataset_row 0 0 45 5) odd_dataset
  /\ ~ In 45 [15; 30; 60]
  /\ forall x,
       In x (snd (snd (simulate_allocation_locals
                         (__init__ odd_dataset "FirstArrive" false 60)))) ->
       dataset_columns x <> mk_dataset_row 0 0 45 5.
Proof.
  assert (Hd : In (mk_dataset_row 0 0 45 5) odd_dataset) by (left; reflexivity).
  assert (Hun : ~ In (ds_ProductTimeDiffMinutes (mk_dataset_row 0 0 45 5)) [15; 30; 60]).
  { simpl. intros [H|[H|[H|[]]]]; discriminate H. }
  split; [exact Hd|]. split; [exact Hun|].
  exact (proj2 (proj2 (proj2
           (unrecognized_interval_excluded odd_dataset "FirstArrive" false 60
                                           (mk_dataset_row 0 0 45 5) Hd Hun)))).
Defined.

(** ** How many records a bucket allocates *)

Lemma count_category_nonneg c l : 0 <= count_category c l.
Proof. unfold count_category. lia. Qed.

(** The numbers taken, in terms of the numbers available. *)
Lemma taken_counts ws :
  Z.of_nat (taken_Hourly ws) = Z.min 48 (count_category Hourly ws)
  /\ Z.of_nat (taken_HalfHourly ws)
     = Z.min (60 - Z.of_nat (taken_Hourly ws)) (count_category HalfHourly ws)
  /\ Z.of_nat (taken_QuarterHourly ws)
     = Z.min (60 - Z.of_nat (taken_Hourly ws) - Z.of_nat (taken_HalfHourly ws))
             (count_category QuarterHourly ws).
Proof.
  pose proof (taken_Hourly_le ws) as HH.
  pose proof (taken_HalfHourly_le ws) as HHH.
  rewrite !count_category_product_group.
  split; [|split].
  - unfold taken_Hourly. rewrite length_firstn. lia.
  - unfold taken_HalfHourly. rewrite length_firstn. lia.
  - unfold taken_QuarterHourly. rewrite length_firstn. lia.
Qed.

(** X1: the exact numbers allocated in a bucket.  Hourly gets the smaller of
    48 and the number of Hourly records in the working set; HalfHourly and
    QuarterHourly get the smaller of what the cap of 60 has left and the
    number available, so their limits of 96 and 192 never bind; and the
    bucket allocates in all the smaller of 60 and the number so obtained. *)
Theorem allocation_counts dataset strat ub thr (group : list trade) :
  let self := __init__ dataset strat ub thr in
  let ws := working_set self group in
  let allocated := fst (bucket_outputs self group) in
  count_category Hourly allocated = Z.min 48 (count_category Hourly ws)
  /\ count_category HalfHourly allocated
     = Z.min (60 - count_category Hourly allocated) (count_category HalfHourly ws)
  /\ count_category QuarterHourly allocated
     = Z.min (60 - count_category Hourly allocated
                 - count_category HalfHourly allocated)
             (count_category QuarterHourly ws)
  /\ Z.of_nat (List.length allocated)
     = Z.min 60 (Z.min 48 (count_category Hourly ws)
                 + count_category HalfHourly ws
                 + count_category QuarterHourly ws).
Proof.
  intros self ws allocated. unfold allocated, self.
  rewrite !count_category_allocated, length_allocated. fold self. fold ws.
  cbn [taken].
  destruct (taken_counts ws) as (EH & EHH & EQ).
  pose proof (count_category_nonneg Hourly ws).
  pose proof (count_category_nonneg HalfHourly ws).
  pose proof (count_category_nonneg QuarterHourly ws).
  repeat split; lia.
Qed.

(** X2: a bucket leaves no record unallocated exactly when its working set
    has at most 48 Hourly records and at most 60 labelled records in all. *)
Theorem nothing_unallocated_iff dataset strat ub thr (group : list trade) :
  let self := __init__ dataset strat ub thr in
  let ws := working_set self group in
  snd (bucket_outputs self group) = []
  <-> count_category Hourly ws <= 48
      /\ count_category Hourly ws + count_category HalfHourly ws
         + count_category QuarterHourly ws <= 60.
Proof.
  intros self ws.
  pose proof (length_unallocated dataset strat ub thr group) as Hlen.
  cbv zeta in Hlen. fold self in Hlen.
  pose proof (count_category_unallocated dataset strat ub thr group Hourly) as UH.
  pose proof (count_category_unallocated dataset strat ub thr group HalfHourly) as UHH.
  pose proof (count_category_unallocated dataset strat ub thr group QuarterHourly) as UQ.
  cbv zeta in UH, UHH, UQ. fold self in UH, UHH, UQ. fold ws in UH, UHH, UQ.
  cbn [taken] in UH, UHH, UQ.
  destruct (taken_counts ws) as (EH & EHH & EQ).
  pose proof (count_category_nonneg Hourly ws).
  pose proof (count_category_nonneg HalfHourly ws).
  pose proof (count_category_nonneg QuarterHourly ws).
  split.
  - intros E. rewrite E in UH, UHH, UQ.
    change (count_category Hourly []) with 0 in UH.
    change (count_category HalfHourly []) with 0 in UHH.
    change (count_category QuarterHourly []) with 0 in UQ. lia.
  - intros [H48 H60].
    destruct (snd (bucket_outputs self group)) as [|x l]; [reflexivity|].
    exfalso. cbn [List.length] in Hlen. lia.
Qed.

(** X3: the strategy decides which records a bucket allocates, not how
    many: per category, two objects that differ in the strategy only
    allocate, and leave unallocated, the same numbers of records. *)
Theorem counts_independent_of_strategy dataset strat strat' ub thr
    (group : list trade) (c : category) :
  let self := __init__ dataset strat ub thr in
  let self' := __init__ dataset strat' ub thr in
  count_category c (fst (bucket_outputs self group))
  = count_category c (fst (bucket_outputs self' group))
  /\ count_category c (snd (bucket_outputs self group))
     = count_category c (snd (bucket_outputs self' group)).
Proof.
  intros self self'. unfold self, self'.
  rewrite !count_category_unallocated, !count_category_allocated.
  fold self. fold self'.
  assert (Hws : forall c', count_category c' (working_set self group)
                           = count_category c' (working_set self' group)).
  { intros c'. unfold working_set.
    rewrite (count_category_perm c' _ _ (apply_strategy_perm self _)).
    rewrite (count_category_perm c' _ _ (apply_strategy_perm self' _)).
    reflexivity. }
  destruct (taken_counts (working_set self group)) as (EH & EHH & EQ).
  destruct (taken_counts (working_set self' group)) as (EH' & EHH' & EQ').
  rewrite !Hws in EH, EHH, EQ.
  pose proof (Hws c) as Hc.
  destruct c; cbn [taken]; split; lia.
Qed.

(** ** "MaxMW" prefers volume *)

Lemma StronglySorted_filter {A : Type} (R : A -> A -> Prop) (p : A -> bool) (l : list A) :
  StronglySorted R l -> StronglySorted R (filter p l).
Proof.
  induction 1 as [|x l Hs IH Hx]; simpl; [constructor|].
  destruct (p x); [|exact IH].
  constructor; [exact IH|].
  apply Forall_forall. intros y Hy. apply filter_In in Hy.
  rewrite Forall_forall in Hx. now apply Hx.
Qed.

Lemma StronglySorted_firstn_skipn {A : Type} (R : A -> A -> Prop) (l : list A) :
  StronglySorted R l ->
  forall k x y, In x (firstn k l) -> In y (skipn k l) -> R x y.
Proof.
  induction 1 as [|z l Hs IH Hz]; intros k x y Hx Hy.
  - destruct k; simpl in Hx; contradiction.
  - destruct k as [|k]; simpl in Hx, Hy; [contradiction|].
    destruct Hx as [<-|Hx].
    + rewrite Forall_forall in Hz. apply Hz. eapply skipn_In_incl. exact Hy.
    + eapply IH; eassumption.
Qed.

(** X4: under "MaxMW", within a bucket and a category, no unallocated
    record has a larger volume than an allocated one. *)
Theorem MaxMW_prefers_volume dataset ub thr (group : list trade)
    (c : category) (a u : trade) :
  let self := __init__ dataset "MaxMW" ub thr in
  In a (fst (bucket_outputs self group)) ->
  In u (snd (bucket_outputs self group)) ->
  ProductCategory a = Some c ->
  ProductCategory u = Some c ->
  QuantityMWh a >= QuantityMWh u.
Proof.
  intros self Ha Hu Hca Hcu.
  assert (Ha' : In a (product_group c (fst (bucket_outputs self group))))
    by (apply product_group_In; auto).
  assert (Hu' : In u (product_group c (snd (bucket_outputs self group))))
    by (apply product_group_In; auto).
  unfold self in Ha', Hu'.
  rewrite allocated_of_category in Ha'. rewrite unallocated_of_category in Hu'.
  fold self in Ha', Hu'.
  assert (Hs : StronglySorted (key_le (fun x => - QuantityMWh x))
                              (product_group c (working_set self group))).
  { apply StronglySorted_filter. unfold working_set, apply_strategy.
    cbn [strategy self __init__]. change (String.eqb "MaxMW" "MaxMW") with true.
    cbv iota. apply sorted_ascending. }
  pose proof (StronglySorted_firstn_skipn _ _ Hs _ _ _ Ha' Hu') as Hle.
  unfold key_le in Hle. lia.
Qed.

Lemma MaxMW_prefers_volume_witness :
  let self := __init__ volumes_dataset "MaxMW" false 60 in
  let a := mk_trade 3 0 15 20 (Some QuarterHourly) (Some 0) None in
  let u := mk_trade 1 0 15 5 (Some QuarterHourly) (Some 0) None in
  In a (fst (bucket_outputs self volumes_group))
  /\ In u (snd (bucket_outputs self volumes_group))
  /\ QuantityMWh a >= QuantityMWh u.
Proof.
  intros self a u.
  assert (Ha : In a (fst (bucket_outputs self volumes_group))).
  { vm_compute. repeat (first [left; reflexivity | right]). }
  assert (Hu : In u (snd (bucket_outputs self volumes_group))).
  { vm_compute. left. reflexivity. }
  split; [exact Ha|]. split; [exact Hu|].
  exact (MaxMW_prefers_volume volumes_dataset false 60 volumes_group QuarterHourly
                              a u Ha Hu eq_refl eq_refl).
Defined.

(** ** The buckets of a run *)

Lemma floor_T_multiple t : floor_T t mod minute_ns = 0.
Proof.
  unfold floor_T. rewrite Zminus_mod_idemp_r, Z.sub_diag. reflexivity.
Qed.

Lemma floor_T_bounds t : floor_T t <= t < floor_T t + minute_ns.
Proof.
  unfold floor_T.
  assert (H : 0 <= t mod minute_ns < minute_ns)
    by (apply Z.mod_pos_bound; reflexivity).
  lia.
Qed.

Lemma floor_T_unique m t :
  m mod minute_ns = 0 -> m <= t < m + minute_ns -> floor_T t = m.
Proof.
  intros Hm Ht. unfold floor_T.
  assert (Hq : m = minute_ns * (m / minute_ns)).
  { rewrite (Z.div_mod m minute_ns) at 1 by discriminate. rewrite Hm. lia. }
  assert (Hr : t - m = t mod minute_ns).
  { apply (Z.mod_unique_pos t minute_ns (m / minute_ns) (t - m)); lia. }
  lia.
Qed.

Lemma assign_Minute_row self r :
  In r (data (assign_Minute self)) ->
  Minute r = Some (floor_T (TransactionTime_parsed r)).
Proof.
  cbn [assign_Minute set_data data]. intros H. apply in_map_iff in H.
  destruct H as [r0 [<- _]]. reflexivity.
Qed.

Lemma Minute_keys_In m rows :
  In m (Minute_keys rows) <-> exists r, In r rows /\ Minute r = Some m.
Proof.
  unfold Minute_keys. rewrite in_flat_map. split.
  - intros [r [Hr Hm]]. exists r. split; [exact Hr|].
    destruct (Minute r) as [m'|]; simpl in Hm; [|contradiction].
    destruct Hm as [->|[]]. reflexivity.
  - intros [r [Hr Hm]]. exists r. split; [exact Hr|]. rewrite Hm. now left.
Qed.

Lemma concat_groups_perm rows (ks : list Z) :
  NoDup ks ->
  Permutation (List.concat (map (fun k => filter (Minute_is k) rows) ks))
              (filter (fun r => existsb (fun k => Minute_is k r) ks) rows).
Proof.
  induction 1 as [|k ks Hnotin Hnd IH]; simpl.
  - induction rows; simpl; [constructor | assumption].
  - rewrite IH.
    apply (filter_disjoint_perm (Minute_is k)
             (fun r => existsb (fun k' => Minute_is k' r) ks)).
    intros r Hr. apply Minute_is_true in Hr.
    destruct (existsb _ ks) eqn:E; [|reflexivity].
    exfalso. apply Hnotin. apply existsb_exists in E.
    destruct E as [k' [Hk' Hm]]. apply Minute_is_true in Hm.
    replace k with k' by congruence. exact Hk'.
Qed.

Lemma StronglySorted_lt_NoDup (l : list Z) : StronglySorted Z.lt l -> NoDup l.
Proof.
  induction 1 as [|x l _ IH Hx]; constructor; [|exact IH].
  intros Hin. rewrite Forall_forall in Hx. apply Hx in Hin. lia.
Qed.

(** The groups of [groupby] hold every row that has a key, once. *)
Lemma groupby_Minute_perm rows :
  Permutation (List.concat (map snd (groupby_Minute rows))) (filter has_Minute rows).
Proof.
  unfold groupby_Minute. rewrite map_map. cbn [snd].
  rewrite concat_groups_perm
    by (apply StronglySorted_lt_NoDup, unique_sorted_ascending).
  erewrite filter_ext_in; [reflexivity|].
  intros r Hr. unfold has_Minute.
  destruct (Minute r) as [m|] eqn:Hm.
  - apply existsb_exists. exists m. split.
    + apply unique_sorted_In, Minute_keys_In. eauto.
    + now apply Minute_is_true.
  - destruct (existsb _ _) eqn:E; [|reflexivity].
    apply existsb_exists in E. destruct E as [k [_ Hk]].
    apply Minute_is_true in Hk. congruence.
Qed.

Lemma grouped_perm self :
  Permutation (List.concat (map snd (grouped self))) (data (assign_Minute self)).
Proof.
  unfold grouped. rewrite groupby_Minute_perm.
  rewrite filter_all; [reflexivity|].
  apply Forall_forall. intros r Hr. unfold has_Minute.
  now rewrite (assign_Minute_row self r Hr).
Qed.

(** X5: the buckets of a run partition the stored rows: together they hold
    every row exactly once, their minutes are pairwise distinct, and no
    bucket is empty. *)
Theorem buckets_partition_rows (self : TradeAllocationSimulation) :
  Permutation (List.concat (map snd (grouped self))) (data (assign_Minute self))
  /\ NoDup (map fst (grouped self))
  /\ Forall (fun g => snd g <> []) (grouped self).
Proof.
  split; [apply grouped_perm|]. split.
  - apply StronglySorted_lt_NoDup. unfold grouped. apply groupby_Minute_ascending.
  - apply Forall_forall. intros [m group] Hg. unfold grouped in Hg.
    apply groupby_Minute_In in Hg. destruct Hg as [-> Hm].
    apply Minute_keys_In in Hm. destruct Hm as [r [Hr Hm]].
    cbn [snd]. intros E.
    assert (Hin : In r (filter (Minute_is m) (data (assign_Minute self)))).
    { apply filter_In. split; [exact Hr | now apply Minute_is_true]. }
    rewrite E in Hin. contradiction.
Qed.

(** X6: the bucket of minute [m] starts at a whole minute and holds exactly
    the stored rows submitted from [m] on and less than one minute later. *)
Theorem bucket_window (self : TradeAllocationSimulation) (m : Z) (group : list trade) :
  In (m, group) (grouped self) ->
  m mod minute_ns = 0
  /\ forall r, In r group <->
               In r (data (assign_Minute self))
               /\ m <= TransactionTime_parsed r < m + minute_ns.
Proof.
  intros Hg. unfold grouped in Hg. apply groupby_Minute_In in Hg.
  destruct Hg as [-> Hm].
  assert (Hmult : m mod minute_ns = 0).
  { apply Minute_keys_In in Hm. destruct Hm as [r [Hr Hm]].
    rewrite (assign_Minute_row self r Hr) in Hm. inversion Hm.
    apply floor_T_multiple. }
  split; [exact Hmult|].
  intros r. rewrite filter_In, Minute_is_true. split.
  - intros [Hr Hmin]. split; [exact Hr|].
    rewrite (assign_Minute_row self r Hr) in Hmin. inversion Hmin.
    apply floor_T_bounds.
  - intros [Hr Ht]. split; [exact Hr|].
    rewrite (assign_Minute_row self r Hr). f_equal.
    now apply floor_T_unique.
Qed.

Lemma bucket_window_witness :
  In (0, mixed_group) (grouped (__init__ mixed_dataset "MaxMW" false 60))
  /\ 0 mod minute_ns = 0.
Proof.
  assert (Hin : In (0, mixed_group) (grouped (__init__ mixed_dataset "MaxMW" false 60))).
  { left. reflexivity. }
  split; [exact Hin|].
  exact (proj1 (bucket_window (__init__ mixed_dataset "MaxMW" false 60) 0
                              mixed_group Hin)).
Defined.

(** ** The whole run *)

Lemma bucket_outputs_perm dataset strat thr group :
  (forall r, In r group -> exists c, ProductCategory r = Some c) ->
  let out := bucket_outputs (__init__ dataset strat false thr) group in
  Permutation (fst out ++ snd out) group.
Proof.
  intros Hcat out.
  destruct (bucket_outputs_positions dataset strat thr group Hcat)
    as (pa & pu & Hperm & Ha & Hu).
  fold out in Ha, Hu.
  rewrite Ha, Hu, <- map_app, <- (map_snd_positioned group).
  now apply Permutation_map.
Qed.

Lemma concat_map_app_perm {A B : Type} (f g : A -> list B) (l : list A) :
  Permutation (List.concat (map f l) ++ List.concat (map g l))
              (List.concat (map (fun x => f x ++ g x) l)).
Proof.
  induction l as [|x l IH]; simpl; [constructor|].
  rewrite <- IH, <- !app_assoc. apply Permutation_app_head.
  apply Permutation_app_swap_app.
Qed.

Lemma concat_map_perm {A B : Type} (h k : A -> list B) (l : list A) :
  (forall x, In x l -> Permutation (h x) (k x)) ->
  Permutation (List.concat (map h l)) (List.concat (map k l)).
Proof.
  induction l as [|x l IH]; intros H; simpl; [constructor|].
  apply Permutation_app.
  - apply H. now left.
  - apply IH. intros y Hy. apply H. now right.
Qed.

(** X7: with buffering off and every interval length among 15, 30 and 60,
    a run loses and invents no trade: the allocated and the unallocated list
    together hold the stored rows, each as often as it is stored, so their
    lengths add up to the number of rows of the dataset. *)
Theorem run_conserves_trades dataset strat thr :
  Forall (fun d => In (ds_ProductTimeDiffMinutes d) [15; 30; 60]) dataset ->
  let self := __init__ dataset strat false thr in
  let locals := snd (simulate_allocation_locals self) in
  Permutation (fst locals ++ snd locals) (data (assign_Minute self))
  /\ (List.length (fst locals) + List.length (snd locals))%nat = List.length dataset.
Proof.
  intros Hds self locals.
  assert (Hperm : Permutation (fst locals ++ snd locals) (data (assign_Minute self))).
  { unfold locals, self.
    rewrite simulate_allocation_locals_spec by apply init_keys_distinct.
    fold self. cbn [fst snd].
    rewrite concat_map_app_perm, <- grouped_perm.
    apply concat_map_perm. intros [m group] Hg. cbn [snd].
    apply bucket_outputs_perm. intros r Hr.
    destruct (grouped_In _ _ _ _ _ _ _ Hg Hr) as [_ [d [Hd ->]]].
    cbn [ProductCategory]. apply category_of_minutes_recognized.
    rewrite Forall_forall in Hds. now apply Hds. }
  split; [exact Hperm|].
  apply Permutation_length in Hperm. rewrite length_app in Hperm. rewrite Hperm.
  cbn [self assign_Minute set_data data __init__]. unfold _load_data.
  now rewrite !length_map.
Qed.

Lemma run_conserves_trades_witness :
  Forall (fun d => In (ds_ProductTimeDiffMinutes d) [15; 30; 60]) mixed_dataset
  /\ (List.length (fst (snd (simulate_allocation_locals
                               (__init__ mixed_dataset "MaxMW" false 60))))
      + List.length (snd (snd (simulate_allocation_locals
                                 (__init__ mixed_dataset "MaxMW" false 60)))))%nat
     = List.length mixed_dataset.
Proof.
  assert (Hds : Forall (fun d => In (ds_ProductTimeDiffMinutes d) [15; 30; 60])
                       mixed_dataset).
  { repeat (apply Forall_cons; [simpl; lia|]). apply Forall_nil. }
  split; [exact Hds|].
  exact (proj2 (run_conserves_trades mixed_dataset "MaxMW" 60 Hds)).
Defined.

Lemma StronglySorted_app {A : Type} (R : A -> A -> Prop) (l1 l2 : list A) :
  StronglySorted R l1 -> StronglySorted R l2 ->
  (forall x y, In x l1 -> In y l2 -> R x y) ->
  StronglySorted R (l1 ++ l2).
Proof.
  induction 1 as [|x l1 Hs IH Hx]; intros H2 Hc; simpl; [exact H2|].
  constructor.
  - apply IH; [exact H2|]. intros a b Ha Hb. apply Hc; [now right | exact Hb].
  - apply Forall_app. split; [exact Hx|].
    apply Forall_forall. intros y Hy. apply Hc; [now left | exact Hy].
Qed.

Lemma StronglySorted_same_key {A : Type} (key : A -> Z) (m : Z) (l : list A) :
  (forall x, In x l -> key x = m) ->
  StronglySorted (fun x y => key x <= key y) l.
Proof.
  induction l as [|x l IH]; intros H; constructor.
  - apply IH. intros y Hy. apply H. now right.
  - apply Forall_forall. intros y Hy.
    rewrite (H x (or_introl eq_refl)), (H y (or_intror Hy)). lia.
Qed.

Lemma concat_ascending {A B : Type} (key : B -> Z) (f : Z * A -> list B) (gs : list (Z * A)) :
  StronglySorted Z.lt (map fst gs) ->
  (forall g x, In g gs -> In x (f g) -> key x = fst g) ->
  StronglySorted (fun x y => key x <= key y) (List.concat (map f gs)).
Proof.
  induction gs as [|g gs IH]; intros Hs Hk; simpl; [constructor|].
  inversion Hs as [|? ? Hs' Hlt]; subst.
  apply StronglySorted_app.
  - apply StronglySorted_same_key with (m := fst g).
    intros x Hx. apply Hk; [now left | exact Hx].
  - apply IH; [exact Hs'|]. intros g' x Hg' Hx. apply Hk; [now right | exact Hx].
  - intros x y Hx Hy. apply in_concat in Hy. destruct Hy as [l [Hl Hy]].
    apply in_map_iff in Hl. destruct Hl as [g' [<- Hg']].
    rewrite (Hk g x (or_introl eq_refl) Hx), (Hk g' y (or_intror Hg') Hy).
    rewrite Forall_forall in Hlt.
    assert (fst g < fst g') by (apply Hlt; now apply in_map). lia.
Qed.

(** A record of an output of a bucket carries the minute of the bucket. *)
Lemma bucket_record_Minute dataset strat ub thr m group x :
  let self := __init__ dataset strat ub thr in
  In (m, group) (grouped self) ->
  In x (fst (bucket_outputs self group) ++ snd (bucket_outputs self group)) ->
  Minute x = Some m /\ floor_T (TransactionTime_parsed x) = m.
Proof.
  intros self Hg Hx. apply bucket_outputs_In in Hx. destruct Hx as [Hws _].
  apply working_set_In, initial_buffer_source in Hws.
  destruct Hws as [r [Hr Hx]].
  destruct (grouped_In _ _ _ _ _ _ _ Hg Hr) as [Hm [d [_ Hd]]].
  assert (Hf : floor_T (TransactionTime_parsed r) = m).
  { rewrite Hd in Hm |- *. cbn in Hm |- *. congruence. }
  destruct Hx as [->| ->]; auto.
Qed.

(** X8: the records of the returned frame come in ascending order of the
    minute of their submission time, and each carries that minute in its
    [Minute] field. *)
Theorem returned_records_by_minute dataset strat ub thr :
  let self := __init__ dataset strat ub thr in
  let returned := records (snd (simulate_allocation self)) in
  StronglySorted (fun x y => floor_T (TransactionTime_parsed x)
                             <= floor_T (TransactionTime_parsed y)) returned
  /\ Forall (fun x => Minute x = Some (floor_T (TransactionTime_parsed x))) returned.
Proof.
  intros self returned.
  assert (E : returned
              = List.concat (map (fun g => snd (bucket_outputs self (snd g)))
                                 (grouped self))).
  { unfold returned, simulate_allocation, self.
    rewrite simulate_allocation_locals_spec by apply init_keys_distinct.
    reflexivity. }
  rewrite E. split.
  - apply (concat_ascending (fun x => floor_T (TransactionTime_parsed x))).
    + unfold grouped. apply groupby_Minute_ascending.
    + intros [m group] x Hg Hx. cbn [fst snd] in *.
      apply (bucket_record_Minute dataset strat ub thr m group x Hg).
      apply in_or_app. now right.
  - apply Forall_forall. intros x Hx. apply in_concat in Hx.
    destruct Hx as [l [Hl Hx]]. apply in_map_iff in Hl.
    destruct Hl as [[m group] [<- Hg]]. cbn [snd] in Hx.
    destruct (bucket_record_Minute dataset strat ub thr m group x Hg) as [Hm Hf].
    + apply in_or_app. now right.
    + now rewrite Hf.
Qed.

(** ** Running twice *)

Lemma assign_Minute_idempotent self :
  assign_Minute (assign_Minute self) = assign_Minute self.
Proof.
  unfold assign_Minute, set_data. cbn [strategy use_buffer buffer_threshold
    trade_limits max_messages_per_minute data].
  f_equal. rewrite map_map. apply map_ext. intros r. reflexivity.
Qed.

(** X9: a second run changes nothing: run on the object the first run left,
    [simulate_allocation] leaves that object as it is and returns the frame
    the first run returned, and so does [get_summary] with its result. *)
Theorem second_run_same (self : TradeAllocationSimulation) :
  let first := simulate_allocation self in
  simulate_allocation (fst first) = first
  /\ get_summary (fst (get_summary self)) = get_summary self.
Proof.
  assert (Hfst : fst (simulate_allocation self) = assign_Minute self).
  { unfold simulate_allocation.
    destruct (simulate_allocation_locals self) as [s [a u]] eqn:E.
    unfold simulate_allocation_locals in E. now inversion E. }
  assert (Hrun : simulate_allocation (assign_Minute self) = simulate_allocation self).
  { unfold simulate_allocation, simulate_allocation_locals.
    rewrite assign_Minute_idempotent. reflexivity. }
  split.
  - cbv zeta. rewrite Hfst. exact Hrun.
  - assert (Hg : fst (get_summary self) = assign_Minute self).
    { unfold get_summary. rewrite <- Hfst.
      destruct (simulate_allocation self) as [s df]. cbn [fst].
      destruct (groupby_ProductCategory df); reflexivity. }
    rewrite Hg. unfold get_summary. rewrite Hrun. reflexivity.
Qed.

(** ** The summary *)

Lemma In_summary_entry c u c' v n :
  In (c', (v, n)) (summary_entry c u) ->
  c' = c /\ 0 < count_category c u /\ n = count_category c u.
Proof.
  unfold summary_entry. rewrite count_category_product_group.
  destruct (product_group c u) as [|x g]; simpl; [contradiction|].
  intros [H|[]]. inversion H; subst. repeat split; try lia.
Qed.

Lemma summary_entry_keys c u c' :
  In c' (map fst (summary_entry c u)) <-> c' = c /\ 0 < count_category c u.
Proof.
  unfold summary_entry. rewrite count_category_product_group.
  destruct (product_group c u) as [|x g]; simpl.
  - split; [contradiction | lia].
  - split; [intros [<-|[]]; split; [reflexivity | lia] | intros [-> _]; now left].
Qed.

Lemma summary_entry_total c u :
  total_trades (summary_entry c u) = count_category c u.
Proof.
  unfold summary_entry. rewrite count_category_product_group.
  destruct (product_group c u) as [|x g]; [reflexivity|].
  unfold total_trades. cbn [fold_right fst snd]. lia.
Qed.

Lemma total_trades_app m m' : total_trades (m ++ m') = total_trades m + total_trades m'.
Proof. unfold total_trades. induction m; simpl; lia. Qed.

(** Labelled records split into the three categories. *)
Lemma labelled_split u :
  (forall x, In x u -> exists c, ProductCategory x = Some c) ->
  Z.of_nat (List.length u)
  = count_category HalfHourly u + count_category Hourly u
    + count_category QuarterHourly u.
Proof.
  rewrite !count_category_product_group.
  induction u as [|x u IH]; intros H; [reflexivity|].
  assert (IHn := IH (fun y Hy => H y (or_intror Hy))).
  destruct (H x (or_introl eq_refl)) as [c Hc].
  assert (Hcons : forall c', product_group c' (x :: u)
                             = if category_eqb c c' then x :: product_group c' u
                               else product_group c' u).
  { intros c'. unfold product_group. cbn [filter]. unfold has_category.
    rewrite Hc. reflexivity. }
  rewrite !Hcons.
  destruct c; cbn [category_eqb]; cbn [List.length]; lia.
Qed.

Lemma records_simulate_allocation self :
  records (snd (simulate_allocation self))
  = snd (snd (simulate_allocation_locals self)).
Proof.
  unfold simulate_allocation.
  now destruct (simulate_allocation_locals self) as [s [a u]].
Qed.

Lemma get_summary_result self :
  snd (get_summary self)
  = match records (snd (simulate_allocation self)) with
    | [] => inl (KeyError "ProductCategory")
    | _ :: _ =>
        let u := records (snd (simulate_allocation self)) in
        inr (summary_entry HalfHourly u ++ summary_entry Hourly u
             ++ summary_entry QuarterHourly u)
    end.
Proof.
  unfold get_summary, simulate_allocation.
  destruct (simulate_allocation_locals self) as [s [a u]].
  cbn [snd records pd_DataFrame].
  destruct u as [|x u]; [reflexivity|].
  unfold groupby_ProductCategory. cbn [columns records pd_DataFrame].
  assert (Hk : existsb (String.eqb "ProductCategory") (keys x) = true).
  { unfold keys. apply existsb_exists. exists "ProductCategory".
    split; [|reflexivity]. apply in_or_app. left. simpl. tauto. }
  rewrite Hk. cbn [snd flat_map]. cbv zeta.
  unfold summary_entry, product_group. rewrite app_nil_r, !map_app.
  generalize (x :: u). intros l.
  destruct (filter (has_category ProductCategory HalfHourly) l);
    destruct (filter (has_category ProductCategory Hourly) l);
    destruct (filter (has_category ProductCategory QuarterHourly) l); reflexivity.
Qed.

(** X10: [get_summary] raises exactly when the run leaves no trade
    unallocated, and the error is then the [KeyError] for the column
    [ProductCategory]. *)
Theorem get_summary_raises_iff (self : TradeAllocationSimulation) :
  (records (snd (simulate_allocation self)) = []
   <-> snd (get_summary self) = inl (KeyError "ProductCategory"))
  /\ (records (snd (simulate_allocation self)) <> []
      <-> exists m, snd (get_summary self) = inr m).
Proof.
  rewrite get_summary_result.
  destruct (records (snd (simulate_allocation self))) as [|x u]; split; split.
  - reflexivity.
  - reflexivity.
  - intros H. now contradiction H.
  - intros [m Hm]. discriminate Hm.
  - discriminate.
  - discriminate.
  - intros _. eexists. reflexivity.
  - discriminate.
Qed.

(** X11: when [get_summary] returns, its mapping has a row for a category
    exactly when some unallocated trade has that category, and one row
    only; the trade count of the row is the number of these trades, and the
    trade counts of the rows add up to the number of unallocated trades. *)
Theorem get_summary_rows dataset strat ub thr (m : list (category * (Z * Z))) :
  let self := __init__ dataset strat ub thr in
  let u := records (snd (simulate_allocation self)) in
  snd (get_summary self) = inr m ->
  (forall c, In c (map fst m) <-> 0 < count_category c u)
  /\ (forall c v n, In (c, (v, n)) m -> n = count_category c u)
  /\ NoDup (map fst m)
  /\ total_trades m = Z.of_nat (List.length u).
Proof.
  intros self u. rewrite get_summary_result. fold u.
  destruct u as [|x0 u0] eqn:Eu; [discriminate|]. rewrite <- Eu. cbv zeta.
  intros Hm. inversion Hm as [Hm']. clear Hm.
  assert (Hlab : forall x, In x u -> exists c, ProductCategory x = Some c).
  { intros x Hx.
    destruct (output_label dataset strat ub thr x) as (c & Hc & _); [|eauto].
    apply in_or_app. right. unfold u in Hx.
    rewrite records_simulate_allocation in Hx. exact Hx. }
  pose proof (labelled_split u Hlab) as Hn.
  split; [|split; [|split]].
  - intros c. rewrite !map_app, !in_app_iff, !summary_entry_keys.
    destruct c; split; intros H;
      repeat match goal with
             | H : _ \/ _ |- _ => destruct H
             | H : _ /\ _ |- _ => destruct H
             end; try discriminate; auto 10.
  - intros c v n H. rewrite !in_app_iff in H.
    destruct H as [H|[H|H]]; apply In_summary_entry in H;
      destruct H as (-> & _ & ->); reflexivity.
  - unfold summary_entry.
    destruct (product_group HalfHourly u); destruct (product_group Hourly u);
      destruct (product_group QuarterHourly u); cbn [app map fst];
      repeat constructor; simpl; intuition discriminate.
  - rewrite !total_trades_app, !summary_entry_total. lia.
Qed.

Lemma get_summary_rows_witness :
  let self := __init__ priority_dataset "FirstArrive" false 60 in
  snd (get_summary self) = inr [(Hourly, (2, 2)); (QuarterHourly, (38, 38))]
  /\ total_trades [(Hourly, (2, 2)); (QuarterHourly, (38, 38))]
     = Z.of_nat (List.length (records (snd (simulate_allocation self)))).
Proof.
  intros self.
  assert (Hm : snd (get_summary self)
               = inr [(Hourly, (2, 2)); (QuarterHourly, (38, 38))])
    by (vm_compute; reflexivity).
  split; [exact Hm|].
  exact (proj2 (proj2 (proj2
           (get_summary_rows priority_dataset "FirstArrive" false 60 _ Hm)))).
Defined.

(** ** The records of the two lists *)

(** X13: a run invents no record: every record of the allocated and of the
    unallocated list has the four columns of a row of the dataset, the label
    of its interval length, the minute of its submission time, and, when
    buffering is on, its urgency, which is then at most the threshold; when
    buffering is off it has no urgency. *)
Theorem output_records dataset strat ub thr :
  let self := __init__ dataset strat ub thr in
  let locals := snd (simulate_allocation_locals self) in
  Forall (fun x =>
            In (dataset_columns x) dataset
            /\ ProductCategory x = category_of_minutes (ProductTimeDiffMinutes x)
            /\ Minute x = Some (floor_T (TransactionTime_parsed x))
            /\ Urgency x = (if ub then Some (urgency_of x) else None)
            /\ (if ub then urgency_of x <= timedelta_minutes thr else True))
         (fst locals ++ snd locals).
Proof.
  intros self locals. apply Forall_forall. intros x Hx.
  apply simulate_allocation_locals_In in Hx.
  destruct Hx as (m & group & Hg & Hx).
  apply bucket_outputs_In in Hx. destruct Hx as [Hws _].
  apply working_set_In in Hws.
  assert (Hrow : forall r, In r group ->
            In (dataset_columns r) dataset
            /\ ProductCategory r = category_of_minutes (ProductTimeDiffMinutes r)
            /\ Minute r = Some (floor_T (TransactionTime_parsed r))
            /\ Urgency r = None).
  { intros r Hr. destruct (grouped_In _ _ _ _ _ _ _ Hg Hr) as [_ [d [Hd ->]]].
    unfold dataset_columns. cbn. repeat split. now destruct d. }
  destruct ub.
  - apply (initial_buffer_buffered_In (__init__ dataset strat true thr) group x eq_refl)
      in Hws.
    destruct Hws as [r (Hr & -> & Hle)].
    destruct (Hrow r Hr) as (H1 & H2 & H3 & _).
    repeat split; assumption.
  - unfold initial_buffer in Hws. cbn [use_buffer __init__] in Hws.
    destruct (Hrow x Hws) as (H1 & H2 & H3 & H4).
    repeat split; assumption.
Qed.

(** ** Records that are equal by value *)

(** X14: line 85 removes from the buffer, by value, the records it finds in
    [allocated]; with the keys of [trade_limits] pairwise distinct this never
    changes a result: the outputs of a bucket are those of the loop that
    leaves the buffer alone, also when the bucket holds equal records. *)
Theorem removal_by_value_inert (self : TradeAllocationSimulation) (group : list trade) :
  NoDup (map fst (trade_limits self)) ->
  bucket_outputs self group
  = allocate_by ProductCategory (max_messages_per_minute self)
                (trade_limits self) 0 (working_set self group).
Proof. intros Hnd. now apply bucket_outputs_spec. Qed.

Lemma removal_by_value_inert_witness :
  let self := __init__ priority_dataset "FirstArrive" false 60 in
  NoDup (map fst (trade_limits self))
  /\ bucket_outputs self priority_group
     = allocate_by ProductCategory 60 (trade_limits self) 0
                   (working_set self priority_group).
Proof.
  intros self.
  assert (Hnd : NoDup (map fst (trade_limits self))).
  { repeat constructor; simpl; intuition discriminate. }
  split; [exact Hnd|].
  exact (removal_by_value_inert self priority_group Hnd).
Defined.

(** ** What a bucket does with the records of its buffer *)

Lemma Permutation_filter {A : Type} (p : A -> bool) (l l' : list A) :
  Permutation l l' -> Permutation (filter p l) (filter p l').
Proof.
  induction 1 as [|x l l' _ IH|x y l|l l' l'' _ IH1 _ IH2]; simpl.
  - constructor.
  - destruct (p x); [now constructor | exact IH].
  - destruct (p x), (p y); try reflexivity. apply perm_swap.
  - now rewrite IH1.
Qed.

(** X15: whatever the strategy and the buffering, the two outputs of a
    bucket together hold exactly the labelled records that entered the
    buffer, each as often as it entered: a record that passed the buffering
    filter is lost only if it has no label. *)
Theorem bucket_outputs_conserve_buffer dataset strat ub thr (group : list trade) :
  let self := __init__ dataset strat ub thr in
  let out := bucket_outputs self group in
  Permutation (fst out ++ snd out) (filter has_label (initial_buffer self group)).
Proof.
  intros self out. unfold out.
  rewrite bucket_outputs_spec by apply init_keys_distinct.
  rewrite allocate_by_perm by apply init_keys_distinct.
  rewrite (filter_ext (in_limits ProductCategory (trade_limits self)) has_label).
  - apply Permutation_filter. unfold working_set. apply apply_strategy_perm.
  - intros r. unfold in_limits, has_category, has_label.
    cbn [existsb trade_limits self __init__ fst].
    destruct (ProductCategory r) as [[]|]; reflexivity.
Qed.

(** X16: under any strategy but "MaxMW", a bucket serves each category in
    arrival order: the allocated records of a category are the first ones of
    that category in the buffer, and the unallocated ones are those that
    follow. *)
Theorem arrival_order_served dataset strat ub thr (group : list trade) (c : category) :
  strat <> "MaxMW" ->
  let self := __init__ dataset strat ub thr in
  let arrived := product_group c (initial_buffer self group) in
  let n := Z.to_nat (count_category c (fst (bucket_outputs self group))) in
  product_group c (fst (bucket_outputs self group)) = firstn n arrived
  /\ product_group c (snd (bucket_outputs self group)) = skipn n arrived.
Proof.
  intros Hstrat self arrived n.
  assert (Hws : working_set self group = initial_buffer self group).
  { unfold working_set, apply_strategy. cbn [strategy self __init__].
    destruct (String.eqb_spec strat "MaxMW"); [contradiction | reflexivity]. }
  assert (Hn : n = taken c (working_set self group)).
  { unfold n, self. rewrite count_category_allocated. apply Nat2Z.id. }
  pose proof (allocated_of_category dataset strat ub thr group c) as Ha.
  pose proof (unallocated_of_category dataset strat ub thr group c) as Hu.
  cbv zeta in Ha, Hu. fold self in Ha, Hu.
  rewrite Ha, Hu, <- Hn, Hws. split; reflexivity.
Qed.

Lemma arrival_order_served_witness :
  "FirstArrive" <> "MaxMW"
  /\ product_group Hourly
       (snd (bucket_outputs (__init__ priority_dataset "FirstArrive" false 60)
                            priority_group))
     = skipn 48 (product_group Hourly priority_group).
Proof.
  assert (H : "FirstArrive" <> "MaxMW") by discriminate.
  split; [exact H|].
  exact (proj2 (arrival_order_served priority_dataset "FirstArrive" false 60
                                     priority_group Hourly H)).
Defined.
